(** * WindowedListState: the windowing engine of react-windowed-list

    A shallow embedding of [WindowedListState.ts] and the properties its
    specification states about it.

    Modelling conventions.
    - Indices and counts ([length], [visibleIndexTop], [visibleLength], the
      [index] argument of [updateHeightAtIndex]) are integers, [Z].
    - Pixel quantities handed in by the caller (heights, scroll offsets, the
      viewport height) are exact rationals, [Q]: binary64 rounding is not
      modelled.  [===] on them is [Qeq_bool].
    - The class has exactly one division, [totalHeight / length] in
      [calcPaddingBottom], and its result only ever flows into
      [paddingBottom].  That field therefore has type [number]: a rational
      or one of the non-finite values a JavaScript division can produce.
    - [heights] is a [Map<number, number>]: a [gmap Z Q].
    - [handleChange] is the debounced notifier.  The timer is not modelled;
      the field [notifications] counts the calls of [handleChange]. *)

From Stdlib Require Import ZArith QArith Qround Qminmax Lia Lqa Bool List.
From Stdlib Require String.
From stdpp Require Import base gmap.

Local Open Scope Z_scope.

(** ** JavaScript numbers without rounding *)

Module Num.

Inductive number : Type :=
| Fin (q : Q)
| PInf
| NInf
| NaN.

Definition Qltb (x y : Q) : bool := negb (Qle_bool y x).

Definition neg (x : number) : number :=
  match x with
  | Fin q => Fin (- q)
  | PInf => NInf
  | NInf => PInf
  | NaN => NaN
  end.

Definition add (x y : number) : number :=
  match x, y with
  | NaN, _ | _, NaN => NaN
  | Fin a, Fin b => Fin (a + b)
  | PInf, NInf | NInf, PInf => NaN
  | PInf, _ | _, PInf => PInf
  | NInf, _ | _, NInf => NInf
  end.

Definition sub (x y : number) : number := add x (neg y).

(** An infinity with the sign of the rational [q]; [NaN] when [q] is zero. *)
Definition signed_inf (positive : bool) (q : Q) : number :=
  match (q ?= 0)%Q with
  | Eq => NaN
  | Gt => if positive then PInf else NInf
  | Lt => if positive then NInf else PInf
  end.

Definition mul (x y : number) : number :=
  match x, y with
  | NaN, _ | _, NaN => NaN
  | Fin a, Fin b => Fin (a * b)
  | Fin a, PInf | PInf, Fin a => signed_inf true a
  | Fin a, NInf | NInf, Fin a => signed_inf false a
  | PInf, PInf | NInf, NInf => PInf
  | PInf, NInf | NInf, PInf => NInf
  end.

(** Division; a zero divisor is taken to be [+0]. *)
Definition div (x y : number) : number :=
  match x, y with
  | NaN, _ | _, NaN => NaN
  | Fin a, Fin b => if Qeq_bool b 0 then signed_inf true a else Fin (a / b)
  | Fin _, (PInf | NInf) => Fin 0
  | PInf, Fin b => if Qltb b 0 then NInf else PInf
  | NInf, Fin b => if Qltb b 0 then PInf else NInf
  | (PInf | NInf), (PInf | NInf) => NaN
  end.

(** [x < y] *)
Definition ltb (x y : number) : bool :=
  match x, y with
  | NaN, _ | _, NaN => false
  | Fin a, Fin b => Qltb a b
  | _, NInf => false
  | NInf, _ => true
  | PInf, _ => false
  | Fin _, PInf => true
  end.

(** [Math.max(x, y)] *)
Definition max (x y : number) : number :=
  match x, y with
  | NaN, _ | _, NaN => NaN
  | _, _ => if ltb x y then y else x
  end.

(** Numeric equality of two JavaScript numbers that are not [NaN]. *)
Definition eq (x y : number) : Prop :=
  match x, y with
  | Fin a, Fin b => (a == b)%Q
  | PInf, PInf | NInf, NInf => True
  | _, _ => False
  end.

(** [x <= y] as a proposition; false as soon as either side is [NaN]. *)
Definition le (x y : number) : Prop :=
  match x, y with
  | NaN, _ | _, NaN => False
  | Fin a, Fin b => (a <= b)%Q
  | NInf, _ => True
  | _, PInf => True
  | _, _ => False
  end.

End Num.

Export Num (number, Fin, PInf, NInf, NaN).

Declare Scope number_scope.
Delimit Scope number_scope with num.
Bind Scope number_scope with number.
Infix "+" := Num.add : number_scope.
Infix "-" := Num.sub : number_scope.
Infix "*" := Num.mul : number_scope.
Infix "/" := Num.div : number_scope.
Infix "<?" := Num.ltb : number_scope.

(** ** The state and its operations *)

Module WindowedListState.

Record State : Type := mkState {
  viewportHeight : Q;
  length : Z;
  defaultHeight : Q;
  visibleIndexTop : Z;
  visibleLength : Z;
  paddingTop : Q;
  paddingBottom : number;
  scrollTop : Q;
  heights : gmap Z Q;
  totalHeight : Q;
  visibleIndicesCalculated : bool;
  notifications : nat
}.

(** Field assignments [this.f = v]. *)
Definition set_viewportHeight (v : Q) (s : State) : State :=
  mkState v (length s) (defaultHeight s) (visibleIndexTop s) (visibleLength s)
    (paddingTop s) (paddingBottom s) (scrollTop s) (heights s) (totalHeight s)
    (visibleIndicesCalculated s) (notifications s).
Definition set_length (v : Z) (s : State) : State :=
  mkState (viewportHeight s) v (defaultHeight s) (visibleIndexTop s) (visibleLength s)
    (paddingTop s) (paddingBottom s) (scrollTop s) (heights s) (totalHeight s)
    (visibleIndicesCalculated s) (notifications s).
Definition set_defaultHeight (v : Q) (s : State) : State :=
  mkState (viewportHeight s) (length s) v (visibleIndexTop s) (visibleLength s)
    (paddingTop s) (paddingBottom s) (scrollTop s) (heights s) (totalHeight s)
    (visibleIndicesCalculated s) (notifications s).
Definition set_visibleIndexTop (v : Z) (s : State) : State :=
  mkState (viewportHeight s) (length s) (defaultHeight s) v (visibleLength s)
    (paddingTop s) (paddingBottom s) (scrollTop s) (heights s) (totalHeight s)
    (visibleIndicesCalculated s) (notifications s).
Definition set_visibleLength (v : Z) (s : State) : State :=
  mkState (viewportHeight s) (length s) (defaultHeight s) (visibleIndexTop s) v
    (paddingTop s) (paddingBottom s) (scrollTop s) (heights s) (totalHeight s)
    (visibleIndicesCalculated s) (notifications s).
Definition set_paddingTop (v : Q) (s : State) : State :=
  mkState (viewportHeight s) (length s) (defaultHeight s) (visibleIndexTop s) (visibleLength s)
    v (paddingBottom s) (scrollTop s) (heights s) (totalHeight s)
    (visibleIndicesCalculated s) (notifications s).
Definition set_paddingBottom (v : number) (s : State) : State :=
  mkState (viewportHeight s) (length s) (defaultHeight s) (visibleIndexTop s) (visibleLength s)
    (paddingTop s) v (scrollTop s) (heights s) (totalHeight s)
    (visibleIndicesCalculated s) (notifications s).
Definition set_scrollTop (v : Q) (s : State) : State :=
  mkState (viewportHeight s) (length s) (defaultHeight s) (visibleIndexTop s) (visibleLength s)
    (paddingTop s) (paddingBottom s) v (heights s) (totalHeight s)
    (visibleIndicesCalculated s) (notifications s).
Definition set_heights (v : gmap Z Q) (s : State) : State :=
  mkState (viewportHeight s) (length s) (defaultHeight s) (visibleIndexTop s) (visibleLength s)
    (paddingTop s) (paddingBottom s) (scrollTop s) v (totalHeight s)
    (visibleIndicesCalculated s) (notifications s).
Definition set_totalHeight (v : Q) (s : State) : State :=
  mkState (viewportHeight s) (length s) (defaultHeight s) (visibleIndexTop s) (visibleLength s)
    (paddingTop s) (paddingBottom s) (scrollTop s) (heights s) v
    (visibleIndicesCalculated s) (notifications s).
Definition set_visibleIndicesCalculated (v : bool) (s : State) : State :=
  mkState (viewportHeight s) (length s) (defaultHeight s) (visibleIndexTop s) (visibleLength s)
    (paddingTop s) (paddingBottom s) (scrollTop s) (heights s) (totalHeight s)
    v (notifications s).

(** [this.handleChange()]: one more request to notify the subscribers. *)
Definition handleChange (s : State) : State :=
  mkState (viewportHeight s) (length s) (defaultHeight s) (visibleIndexTop s) (visibleLength s)
    (paddingTop s) (paddingBottom s) (scrollTop s) (heights s) (totalHeight s)
    (visibleIndicesCalculated s) (S (notifications s)).

(** *** Construction *)

Definition Option : Type := State -> State.

Module Options.
Definition defaultHeight (height : Q) : Option := set_defaultHeight height.
Definition scrollTop (scrollTop : Q) : Option := set_scrollTop scrollTop.
End Options.

(** The object as the options see it: the three fields assigned before
    [options.forEach]; every other field is still unassigned there and is
    assigned after it, so the placeholders below are never read. *)
Definition blank : State :=
  mkState 1 0 0 0 0 0 (Fin 0) 0 ∅ 0 false 0.

Definition constructor (options : list Option) : State :=
  let s := fold_left (fun s fn => fn s) options blank in
  let s := set_visibleIndexTop 0 s in
  let s := set_visibleLength 0 s in
  let s := set_paddingTop 0 s in
  let s := set_paddingBottom (Fin 0) s in
  let s := set_scrollTop 0 s in
  let s := set_heights ∅ s in
  let s := set_totalHeight (inject_Z (length s) * defaultHeight s) s in
  set_visibleIndicesCalculated false s.

(** *** Item heights *)

Definition getItemHeight (s : State) (index : Z) : Q :=
  if index >? length s - 1 then 0
  else match heights s !! index with
       | None => defaultHeight s
       | Some height => height
       end.

(** [for (i = startIndex; i <= endIndex; i++) sum = sum + getItemHeight(i)],
    with [n] the number of iterations left. *)
Fixpoint range_loop (s : State) (n : nat) (i : Z) (sum : Q) : Q :=
  match n with
  | O => sum
  | S n' => range_loop s n' (i + 1) (sum + getItemHeight s i)
  end.

Definition getItemRangeHeight (s : State) (startIndex endIndex : Z) : Q :=
  range_loop s (Z.to_nat (endIndex - startIndex + 1)) startIndex 0.

(** *** The visible length *)

(** The loop of [calcVisibleLength]; [n] bounds the iterations [i < length]
    still allowed. *)
Fixpoint visible_loop (s : State) (n : nat) (i : Z)
    (visibleHeight : Q) (visibleLength : Z) : Z :=
  match n with
  | O => visibleLength
  | S n' =>
      if Num.Qltb visibleHeight (viewportHeight s)
      then visible_loop s n' (i + 1) (visibleHeight + getItemHeight s i) (visibleLength + 1)
      else visibleLength
  end.

Definition calcVisibleLength (s : State) : Z :=
  let hiddenHeightTop := (scrollTop s - paddingTop s)%Q in
  let visibleHeight := (hiddenHeightTop * (-1 # 1))%Q in
  visible_loop s (Z.to_nat (length s - visibleIndexTop s)) (visibleIndexTop s) visibleHeight 0.

(** *** Full computation *)

(** The forward scan shared by [calculateVisibleIndices] (from index 0) and
    the scrolled-down branch of [updateScrollPosition] (from the current top):
    [if (paddingTop + height <= scrollTop) {...} else break]. *)
Fixpoint scan_down (s : State) (scrollTop : Q) (n : nat) (i : Z)
    (visibleIndexTop : Z) (paddingTop : Q) : Z * Q :=
  match n with
  | O => (visibleIndexTop, paddingTop)
  | S n' =>
      let height := getItemHeight s i in
      if Qle_bool (paddingTop + height) scrollTop
      then scan_down s scrollTop n' (i + 1) (visibleIndexTop + 1) (paddingTop + height)%Q
      else (visibleIndexTop, paddingTop)
  end.

Definition calculateVisibleIndices (s : State) : State :=
  let s :=
    if Qeq_bool (scrollTop s) 0 then
      set_paddingTop 0 (set_visibleIndexTop 0 s)
    else
      let '(visibleIndexTop, paddingTop) :=
        scan_down s (scrollTop s) (Z.to_nat (length s - 0)) 0 0 0 in
      set_paddingTop paddingTop (set_visibleIndexTop visibleIndexTop s) in
  let s := set_visibleLength (calcVisibleLength s) s in
  let visibleIndexBottom := visibleIndexTop s + visibleLength s - 1 in
  let s := set_paddingBottom
             (Fin (getItemRangeHeight s (visibleIndexBottom + 1) (length s - 1))) s in
  let s := set_visibleIndicesCalculated true s in
  handleChange s.

(** *** Bottom padding after the window moved *)

Definition calcPaddingBottom (s : State)
    (visibleIndexBottom prevVisibleIndexBottom : Z) : number :=
  let paddingBottom := paddingBottom s in
  let paddingBottom :=
    if visibleIndexBottom =? length s - 1 then
      Fin 0
    else if visibleIndexBottom <? prevVisibleIndexBottom then
      let heightDelta := getItemRangeHeight s (visibleIndexBottom + 1) prevVisibleIndexBottom in
      (paddingBottom + Fin heightDelta)%num
    else if visibleIndexBottom >? prevVisibleIndexBottom then
      let heightDelta := getItemRangeHeight s prevVisibleIndexBottom (visibleIndexBottom - 1) in
      Num.max (Fin 0) (paddingBottom - Fin heightDelta)%num
    else paddingBottom in
  let nItemsScrollBottom := length s - visibleIndexBottom - 1 in
  let minPaddingBottom :=
    (Fin (inject_Z nItemsScrollBottom)
     * (Fin (totalHeight s) / Fin (inject_Z (length s))))%num in
  if (paddingBottom <? minPaddingBottom)%num then minPaddingBottom else paddingBottom.

(** *** Incremental updates *)

Definition updateViewportHeight (height : Q) (s : State) : State :=
  if Qeq_bool height (viewportHeight s) then s
  else
    let s := set_viewportHeight height s in
    let prevVisibleLength := visibleLength s in
    let s := set_visibleLength (calcVisibleLength s) s in
    let prevVisibleIndexBottom := visibleIndexTop s + prevVisibleLength - 1 in
    let visibleIndexBottom := visibleIndexTop s + visibleLength s - 1 in
    let s := set_paddingBottom
               (calcPaddingBottom s visibleIndexBottom prevVisibleIndexBottom) s in
    handleChange s.

Definition updateLength (len : Z) (s : State) : State :=
  if len =? length s then s
  else
    let prevLength := length s in
    let s := set_length len s in
    let totalHeightDelta := (inject_Z (len - prevLength) * defaultHeight s)%Q in
    let s := set_totalHeight (totalHeight s + totalHeightDelta) s in
    if len >? prevLength then
      let prevVisibleLength := visibleLength s in
      let s := set_visibleLength (calcVisibleLength s) s in
      let nNewVisible := visibleLength s - prevVisibleLength in
      let heightDelta := getItemRangeHeight s (prevLength + nNewVisible) (len - 1) in
      let s := set_paddingBottom (paddingBottom s + Fin heightDelta)%num s in
      handleChange s
    else
      calculateVisibleIndices s.

(** The backward scan of the scrolled-up branch of [updateScrollPosition]:
    [for (i = visibleIndexTop - 1; i >= 0; i--)
       if (paddingTop > scrollTop) {...} else break]. *)
Fixpoint scan_up (s : State) (scrollTop : Q) (n : nat) (i : Z)
    (visibleIndexTop : Z) (paddingTop : Q) : Z * Q :=
  match n with
  | O => (visibleIndexTop, paddingTop)
  | S n' =>
      let height := getItemHeight s i in
      if Num.Qltb scrollTop paddingTop
      then scan_up s scrollTop n' (i - 1) (visibleIndexTop - 1) (paddingTop - height)%Q
      else (visibleIndexTop, paddingTop)
  end.

Definition updateScrollPosition (newScrollTop : Q) (s : State) : State :=
  let prevScrollTop := scrollTop s in
  let s := set_scrollTop newScrollTop s in
  if negb (visibleIndicesCalculated s) then calculateVisibleIndices s
  else
    let prevVisibleIndexTop := visibleIndexTop s in
    let prevVisibleLength := visibleLength s in
    let scrollTopDelta := (newScrollTop - prevScrollTop)%Q in
    if Qeq_bool scrollTopDelta 0 then s
    else
      let '(top, paddingTop) :=
        if Num.Qltb scrollTopDelta 0 then
          scan_up s newScrollTop (Z.to_nat (visibleIndexTop s - 1 + 1))
            (visibleIndexTop s - 1) (visibleIndexTop s) (paddingTop s)
        else
          scan_down s newScrollTop (Z.to_nat (length s - visibleIndexTop s))
            (visibleIndexTop s) (visibleIndexTop s) (paddingTop s) in
      let s := set_paddingTop paddingTop (set_visibleIndexTop top s) in
      let s := set_visibleLength (calcVisibleLength s) s in
      let prevVisibleIndexBottom := prevVisibleIndexTop + prevVisibleLength - 1 in
      let visibleIndexBottom := visibleIndexTop s + visibleLength s - 1 in
      let s := set_paddingBottom
                 (calcPaddingBottom s visibleIndexBottom prevVisibleIndexBottom) s in
      handleChange s.

(** [while (this.paddingTop > scrollTop) scrollTop++], run for at most [n]
    iterations. *)
Fixpoint advance_loop (paddingTop : Q) (n : nat) (scrollTop : Q) : Q :=
  match n with
  | O => scrollTop
  | S n' =>
      if Num.Qltb scrollTop paddingTop
      then advance_loop paddingTop n' (scrollTop + 1)%Q
      else scrollTop
  end.

(** The number of unit steps from [scrollTop] up to [paddingTop]; the loop
    has left by then ([advance_exit] below). *)
Definition advance_steps (paddingTop scrollTop : Q) : nat :=
  Z.to_nat (Qceiling (paddingTop - scrollTop)).

Definition advance (paddingTop scrollTop : Q) : Q :=
  advance_loop paddingTop (advance_steps paddingTop scrollTop) scrollTop.

Definition updateHeightAtIndex (index : Z) (height : Q) (s : State) : State :=
  let prevHeight := getItemHeight s index in
  let prevVisibleIndexTop := visibleIndexTop s in
  let prevVisibleLength := visibleLength s in
  let prevVisibleIndexBottom := prevVisibleIndexTop + prevVisibleLength - 1 in
  let s := set_heights (<[index := height]> (heights s)) s in
  let s := set_totalHeight (totalHeight s - prevHeight + height) s in
  if index >? prevVisibleIndexBottom then
    let s := set_paddingBottom (paddingBottom s - Fin prevHeight + Fin height)%num s in
    handleChange s
  else
    let s :=
      if index <? visibleIndexTop s then
        let s := set_paddingTop (paddingTop s - prevHeight + height) s in
        set_scrollTop (advance (paddingTop s) (scrollTop s)) s
      else s in
    let s := set_visibleLength (calcVisibleLength s) s in
    let visibleIndexBottom := visibleIndexTop s + visibleLength s - 1 in
    let s := set_paddingBottom
               (calcPaddingBottom s visibleIndexBottom prevVisibleIndexBottom) s in
    handleChange s.

(** *** The test harness's way of building a state *)

(** [const state = new State(); state.length = ...; state.viewportHeight = ...;
    state.defaultHeight = ...; state.scrollTop = ...], as the test file
    sets a state up: the public fields are assigned directly, so
    [totalHeight] keeps the value the constructor gave it. *)
Definition assigned (len : Z) (viewport default scroll : Q) : State :=
  set_scrollTop scroll
    (set_defaultHeight default
       (set_viewportHeight viewport
          (set_length len (constructor [])))).

(** *** A list built through the public interface *)

(** [s = new WindowedListState(defaultHeight(10)); s.updateLength(10);
    s.updateViewportHeight(50); s.calculateVisibleIndices()]: ten items of
    estimated height 10 under a viewport of 50, so [totalHeight] is 100 and
    the window is the first five items. *)
Definition ten_items : State :=
  calculateVisibleIndices
    (updateViewportHeight 50
       (updateLength 10
          (constructor [Options.defaultHeight 10]))).

(** *** Sequences of mutations, as the test harness runs them *)

Inductive Mutation : Type :=
| UpdateViewportHeight (height : Q)
| UpdateLength (len : Z)
| UpdateScrollPosition (scrollTop : Q)
| UpdateHeightAtIndex (index : Z) (height : Q).

Definition mutate (m : Mutation) (s : State) : State :=
  match m with
  | UpdateViewportHeight height => updateViewportHeight height s
  | UpdateLength len => updateLength len s
  | UpdateScrollPosition scrollTop => updateScrollPosition scrollTop s
  | UpdateHeightAtIndex index height => updateHeightAtIndex index height s
  end.

(** [state]: the mutations alone. *)
Definition incremental (mutations : list Mutation) (s : State) : State :=
  fold_left (fun s m => mutate m s) mutations s.

(** [state2]: [calculateVisibleIndices()] after every mutation. *)
Definition recomputed (mutations : list Mutation) (s : State) : State :=
  fold_left (fun s m => calculateVisibleIndices (mutate m s)) mutations s.

(** The four comparisons of [testMutationSeries]. *)
Definition agree (s1 s2 : State) : Prop :=
  visibleIndexTop s1 = visibleIndexTop s2 /\
  visibleLength s1 = visibleLength s2 /\
  (paddingTop s1 == paddingTop s2)%Q /\
  Num.eq (paddingBottom s1) (paddingBottom s2).

(** *** Predicates of the specification *)

(** Every field holds the same value in [s'] as in [s]. *)
Definition unchanged (s s' : State) : Prop :=
  (viewportHeight s' == viewportHeight s)%Q /\
  length s' = length s /\
  (defaultHeight s' == defaultHeight s)%Q /\
  visibleIndexTop s' = visibleIndexTop s /\
  visibleLength s' = visibleLength s /\
  (paddingTop s' == paddingTop s)%Q /\
  paddingBottom s' = paddingBottom s /\
  (scrollTop s' == scrollTop s)%Q /\
  heights s' = heights s /\
  (totalHeight s' == totalHeight s)%Q /\
  visibleIndicesCalculated s' = visibleIndicesCalculated s /\
  notifications s' = notifications s.

(** The last index of the window. *)
Definition visibleIndexBottom (s : State) : Z :=
  visibleIndexTop s + visibleLength s - 1.

(** When the window ends at the last item, [paddingBottom] is zero. *)
Definition end_clamped (s : State) : Prop :=
  visibleIndexBottom s = length s - 1 -> Num.eq (paddingBottom s) (Fin 0).

(** (items below the window) x (totalHeight / length) *)
Definition average_floor (s : State) : number :=
  (Fin (inject_Z (length s - visibleIndexBottom s - 1))
   * (Fin (totalHeight s) / Fin (inject_Z (length s))))%num.

Definition above_floor (s : State) : Prop :=
  Num.le (average_floor s) (paddingBottom s).

Definition window_in_bounds (s : State) : Prop :=
  0 <= visibleIndexTop s /\ visibleIndexTop s + visibleLength s <= length s.

(** The inductive strengthening of [window_in_bounds]: the window is a
    (possibly empty) range of indices of the list. *)
Definition window_invariant (s : State) : Prop :=
  0 <= visibleIndexTop s /\ 0 <= visibleLength s /\
  visibleIndexTop s + visibleLength s <= length s.

(** *** States the public interface can produce from non-negative inputs *)

Inductive valid_option : Option -> Prop :=
| valid_defaultHeight height : (0 <= height)%Q -> valid_option (Options.defaultHeight height)
| valid_scrollTop scrollTop : (0 <= scrollTop)%Q -> valid_option (Options.scrollTop scrollTop).

(** [allowed s index] says which indices [updateHeightAtIndex] may be given
    in state [s]. *)
Inductive reachable_by (allowed : State -> Z -> Prop) : State -> Prop :=
| reach_constructor options :
    Forall valid_option options -> reachable_by allowed (constructor options)
| reach_calculateVisibleIndices s :
    reachable_by allowed s -> reachable_by allowed (calculateVisibleIndices s)
| reach_updateViewportHeight height s :
    reachable_by allowed s -> (0 <= height)%Q ->
    reachable_by allowed (updateViewportHeight height s)
| reach_updateLength len s :
    reachable_by allowed s -> 0 <= len ->
    reachable_by allowed (updateLength len s)
| reach_updateScrollPosition scrollTop s :
    reachable_by allowed s -> (0 <= scrollTop)%Q ->
    reachable_by allowed (updateScrollPosition scrollTop s)
| reach_updateHeightAtIndex index height s :
    reachable_by allowed s -> allowed s index -> (0 <= height)%Q ->
    reachable_by allowed (updateHeightAtIndex index height s).

(** Any non-negative index, inside the list or beyond it. *)
Definition reachable : State -> Prop :=
  reachable_by (fun _ index => 0 <= index).

(** Only indices of items of the list. *)
Definition reachable_in_range : State -> Prop :=
  reachable_by (fun s index => 0 <= index < length s).

(** The window is inside the list, [visibleLength] is what [calcVisibleLength]
    computes from the other fields, and [paddingBottom] is clamped at the end
    of the list. *)
Definition settled (s : State) : Prop :=
  window_invariant s /\
  visibleLength s = calcVisibleLength s /\
  end_clamped s.

(** *** Invariants of states built through the public interface *)


(** [paddingTop] is the summed height of the items above the window. *)
Definition paddingTop_exact (s : State) : Prop :=
  (paddingTop s == getItemRangeHeight s 0 (visibleIndexTop s - 1))%Q.



(** The height of the window as seen through the viewport: the items
    [visibleIndexTop .. lastIndex] less the part of the first one that is
    scrolled past. *)
Definition visibleHeightUpTo (s : State) (lastIndex : Z) : Q :=
  (getItemRangeHeight s (visibleIndexTop s) lastIndex
   - (scrollTop s - paddingTop s))%Q.





End WindowedListState.

Import WindowedListState.

(** ** Subscriptions: [onChange] and [_handleChange] *)

Module Subscribers.
Section WithCallback.

(** Callback functions, compared by identity as a [Set] does. *)
Context {Callback : Type} `{EqDecision Callback}.

(** [Set.prototype.add]: a set keeps insertion order and holds a value once. *)
Definition add (cb : Callback) (subscribers : list Callback) : list Callback :=
  if decide (cb ∈ subscribers) then subscribers else subscribers ++ [cb].

(** [Set.prototype.delete] *)
Definition delete (cb : Callback) (subscribers : list Callback) : list Callback :=
  filter (fun c => c <> cb) subscribers.

(** [onChange(cb)]: the set with [cb] added, and the unsubscribe function,
    which deletes [cb] from whatever the set is when it is called. *)
Definition onChange (cb : Callback) (subscribers : list Callback)
    : list Callback * (list Callback -> list Callback) :=
  (add cb subscribers, delete cb).

(** [_handleChange()]: the calls [cb(this)] it makes, in order. *)
Definition _handleChange (subscribers : list Callback) (this : State)
    : list (Callback * State) :=
  map (fun cb => (cb, this)) subscribers.

(** The sets that [new Set()], [add] and [delete] produce. *)
Inductive is_set : list Callback -> Prop :=
| set_new : is_set []
| set_add cb subscribers : is_set subscribers -> is_set (add cb subscribers)
| set_delete cb subscribers : is_set subscribers -> is_set (delete cb subscribers).

End WithCallback.
End Subscribers.

(** ** The debug switch ([debug.ts]) *)

Module Debug.

Import Stdlib.Strings.String.

(** The module variable [enabled] and what has been written to the console,
    one entry per [console.log] call, oldest first. *)
Record Console : Type := mkConsole {
  enabled : bool;
  output : list (list String.string)
}.

(** [let enabled = false] *)
Definition initial : Console := mkConsole false [].

Definition enableDebug (c : Console) : Console :=
  if enabled c then c
  else mkConsole true (output c ++ [["debug enabled"%string]]).

Definition disableDebug (c : Console) : Console :=
  mkConsole false (output c).

Definition debug (args : list String.string) (c : Console) : Console :=
  if negb (enabled c) then c
  else mkConsole (enabled c) (output c ++ [args]).

Inductive Call : Type :=
| EnableDebug
| DisableDebug
| DebugCall (args : list String.string).

Definition call (f : Call) (c : Console) : Console :=
  match f with
  | EnableDebug => enableDebug c
  | DisableDebug => disableDebug c
  | DebugCall args => debug args c
  end.

Definition run (calls : list Call) (c : Console) : Console :=
  fold_left (fun c f => call f c) calls c.

End Debug.

(** ** The host adapter ([WindowedList.tsx]) *)

Module WindowedList.

Inductive ActionType : Type := SET_WINDOW.

Record Action : Type := mkAction {
  type : ActionType;
  action_startIndex : Z;
  action_length : Z
}.

(** The component's own state: the rendered range. *)
Record State : Type := mkState {
  startIndex : Z;
  length : Z
}.

Definition getIntialState (listState : WindowedListState.State) : State :=
  mkState (visibleIndexTop listState) (visibleLength listState).

(** One step of [actions.reduce]. *)
Definition reduce_step (prevState : State) (action : Action) : State :=
  match type action with
  | SET_WINDOW => mkState (action_startIndex action) (action_length action)
  end.

(** [reducer(prevState, actions)], where [actions] is one action or an array
    of actions. *)
Definition reducer (prevState : State) (actions : Action + list Action) : State :=
  let actions :=
    match actions with
    | inl action => [action]
    | inr actions => actions
    end in
  fold_left reduce_step actions prevState.

(** [getScrollTop()]; [scrollParent] is [None] while [scrollParentRef.current]
    is [null], and otherwise holds the offset read from the scroll parent
    ([window.scrollY] or [scrollParentRef.current.scrollTop]). *)
Definition getScrollTop (scrollParent : option Q) (offsetTop : Q) : Q :=
  match scrollParent with
  | None => 0
  | Some scrollTop => Qmax 0 (scrollTop - offsetTop)
  end.

Definition handleScroll (scrollParent : option Q) (offsetTop thresholdTop : Q)
    (state : WindowedListState.State) : WindowedListState.State :=
  let scrollTop := Qmax 0 (getScrollTop scrollParent offsetTop - thresholdTop) in
  updateScrollPosition scrollTop state.

(** [handleScrollParentResize()]; [scrollParent] holds the height of the
    scroll container when there is one. *)
Definition handleScrollParentResize (scrollParent : option Q) (thresholdBottom : Q)
    (state : WindowedListState.State) : WindowedListState.State :=
  match scrollParent with
  | None => state
  | Some viewportHeight => updateViewportHeight (viewportHeight + thresholdBottom) state
  end.

End WindowedList.

(** ** Facts about numbers *)

Lemma Qltb_lt (x y : Q) : Num.Qltb x y = true <-> (x < y)%Q.
Proof.
  unfold Num.Qltb. rewrite negb_true_iff, <- not_true_iff_false, Qle_bool_iff.
  split; [apply Qnot_le_lt | apply Qlt_not_le].
Qed.

Lemma Qltb_ge (x y : Q) : Num.Qltb x y = false <-> (y <= x)%Q.
Proof.
  unfold Num.Qltb. rewrite negb_false_iff. apply Qle_bool_iff.
Qed.

Lemma Qeq_bool_false (x y : Q) : ~ (x == y)%Q -> Qeq_bool x y = false.
Proof.
  intros Hne. apply not_true_iff_false. rewrite Qeq_bool_iff. exact Hne.
Qed.

Lemma Zgtb_true (x y : Z) : x > y -> (x >? y) = true.
Proof. intros Hgt. apply Z.gtb_lt. lia. Qed.

Lemma Zgtb_false (x y : Z) : x <= y -> (x >? y) = false.
Proof. intros Hle. rewrite Z.gtb_ltb. apply Z.ltb_ge. exact Hle. Qed.

(** Rewrites the tests of the branches that the hypotheses decide. *)
Ltac take_branch :=
  repeat first
    [ rewrite Zgtb_true by lia
    | rewrite Zgtb_false by lia
    | rewrite Z.eqb_refl
    | rewrite (proj2 (Z.ltb_lt _ _)) by lia
    | rewrite Qeq_bool_false by assumption ].

(** ** Construction *)

Lemma constructor_keeps_defaultHeight (height : Q) :
  defaultHeight (constructor [Options.defaultHeight height]) = height.
Proof. reflexivity. Qed.

(** C2: the [scrollTop(v)] option is meant to give the new state its scroll
    offset, but the constructor assigns [this.scrollTop = 0] after it has run
    the options: whatever the options are, the state starts at scroll offset
    0, and [new WindowedListState(scrollTop(120))] does not have
    [scrollTop = 120]. *)
Theorem constructor_discards_scrollTop_option :
  (forall options : list Option, scrollTop (constructor options) = 0%Q) /\
  ~ (scrollTop (constructor [Options.scrollTop 120]) == 120)%Q.
Proof.
  split; [reflexivity | discriminate].
Qed.

(** ** The worked example of the full computation *)

(** C4, as stated: [paddingBottom] is not 89400 in the example. *)
Lemma scroll_offset_example_not_89400 :
  ~ (visibleIndexTop (calculateVisibleIndices (assigned 1000 400 100 120)) = 1 /\
     visibleLength (calculateVisibleIndices (assigned 1000 400 100 120)) = 5 /\
     (paddingTop (calculateVisibleIndices (assigned 1000 400 100 120)) == 100)%Q /\
     Num.eq (paddingBottom (calculateVisibleIndices (assigned 1000 400 100 120)))
            (Fin 89400)).
Proof.
  vm_compute. intros (_ & _ & _ & H). discriminate H.
Qed.

(** C4, amended: with [length = 1000], [viewportHeight = 400],
    [defaultHeight = 100], [scrollTop = 120] and no measured height,
    whatever the other fields hold, [calculateVisibleIndices] yields
    [visibleIndexTop = 1], [visibleLength = 5], [paddingTop = 100] and
    [paddingBottom = 99400], which is
    [(length - visibleIndexTop - visibleLength) * defaultHeight]. *)
Theorem scroll_offset_example
    (top vis : Z) (pt : Q) (pb : number) (total : Q) (calculated : bool) (n : nat) :
  let s := calculateVisibleIndices
             (mkState 400 1000 100 top vis pt pb 120 ∅ total calculated n) in
  visibleIndexTop s = 1 /\
  visibleLength s = 5 /\
  (paddingTop s == 100)%Q /\
  Num.eq (paddingBottom s) (Fin 99400) /\
  Num.eq (paddingBottom s)
    (Fin (inject_Z (length s - visibleIndexTop s - visibleLength s) * defaultHeight s)).
Proof.
  vm_compute. repeat split.
Qed.

(** ** Frame properties *)

(** C9: updating the height of an item strictly below the window adds the
    height delta to [paddingBottom] and to [totalHeight], records the height,
    and leaves [visibleIndexTop], [visibleLength], [paddingTop], [scrollTop],
    [viewportHeight] and [length] (and [defaultHeight]) as they were. *)
Theorem updateHeightAtIndex_below_window (s : State) (index : Z) (height : Q) :
  index > visibleIndexTop s + visibleLength s - 1 ->
  let s' := updateHeightAtIndex index height s in
  visibleIndexTop s' = visibleIndexTop s /\
  visibleLength s' = visibleLength s /\
  paddingTop s' = paddingTop s /\
  scrollTop s' = scrollTop s /\
  viewportHeight s' = viewportHeight s /\
  length s' = length s /\
  defaultHeight s' = defaultHeight s /\
  visibleIndicesCalculated s' = visibleIndicesCalculated s /\
  paddingBottom s' = (paddingBottom s - Fin (getItemHeight s index) + Fin height)%num /\
  totalHeight s' = (totalHeight s - getItemHeight s index + height)%Q /\
  heights s' = <[index := height]> (heights s).
Proof.
  intros Hbelow. unfold updateHeightAtIndex.
  take_branch. cbn. repeat split.
Qed.

Lemma updateHeightAtIndex_below_window_witness :
  let s := calculateVisibleIndices (assigned 10 50 10 0) in
  let s' := updateHeightAtIndex 7 25 s in
  visibleIndexTop s' = visibleIndexTop s /\
  visibleLength s' = visibleLength s /\
  paddingTop s' = paddingTop s /\
  scrollTop s' = scrollTop s /\
  viewportHeight s' = viewportHeight s /\
  length s' = length s /\
  defaultHeight s' = defaultHeight s /\
  visibleIndicesCalculated s' = visibleIndicesCalculated s /\
  paddingBottom s' = (paddingBottom s - Fin (getItemHeight s 7) + Fin 25)%num /\
  totalHeight s' = (totalHeight s - getItemHeight s 7 + 25)%Q /\
  heights s' = <[7 := 25%Q]> (heights s).
Proof.
  apply (updateHeightAtIndex_below_window
           (calculateVisibleIndices (assigned 10 50 10 0)) 7 25).
  vm_compute. reflexivity.
Defined.

(** C10: when the list grows, [updateLength] keeps [visibleIndexTop],
    [paddingTop] and [scrollTop]; besides [length], [totalHeight],
    [visibleLength] and [paddingBottom] no field of the state is assigned. *)
Theorem updateLength_growth_frame (s : State) (newLength : Z) :
  newLength > length s ->
  let s' := updateLength newLength s in
  visibleIndexTop s' = visibleIndexTop s /\
  paddingTop s' = paddingTop s /\
  scrollTop s' = scrollTop s /\
  viewportHeight s' = viewportHeight s /\
  defaultHeight s' = defaultHeight s /\
  heights s' = heights s /\
  visibleIndicesCalculated s' = visibleIndicesCalculated s /\
  length s' = newLength.
Proof.
  intros Hgrow. unfold updateLength.
  destruct (Z.eqb_spec newLength (length s)) as [Heq | _]; [lia |].
  cbn. take_branch. cbn. repeat split.
Qed.

Lemma updateLength_growth_frame_witness :
  let s := calculateVisibleIndices (assigned 10 50 10 20) in
  let s' := updateLength 12 s in
  visibleIndexTop s' = visibleIndexTop s /\
  paddingTop s' = paddingTop s /\
  scrollTop s' = scrollTop s /\
  viewportHeight s' = viewportHeight s /\
  defaultHeight s' = defaultHeight s /\
  heights s' = heights s /\
  visibleIndicesCalculated s' = visibleIndicesCalculated s /\
  length s' = 12.
Proof.
  apply (updateLength_growth_frame (calculateVisibleIndices (assigned 10 50 10 20)) 12).
  vm_compute. reflexivity.
Defined.

(** ** Incremental updates against the full computation *)

Lemma ten_items_window :
  visibleIndexTop ten_items = 0 /\ visibleLength ten_items = 5 /\
  (paddingTop ten_items == 0)%Q /\ Num.eq (paddingBottom ten_items) (Fin 50) /\
  (totalHeight ten_items == 100)%Q.
Proof. vm_compute. repeat split. Qed.

(** C1: the incremental updates are meant to give what a full computation
    gives ([testMutationSeries] asserts it after every mutation), but they do
    not.  On the ten-item list:
    - after [updateScrollPosition(25)], [updateHeightAtIndex(1, 5)] shrinks an
      item above the window; the incremental state keeps [visibleIndexTop = 2]
      with [paddingTop = 15], where the state that also runs
      [calculateVisibleIndices()] has [visibleIndexTop = 3], [paddingTop = 25];
    - [updateHeightAtIndex(0, 25)] alone shortens the window to four items and
      leaves [paddingBottom = 69] (the average-height floor, 6 x 115/10), where
      the full computation gives 60, the height of the six items below. *)
Theorem incremental_differs_from_recomputed :
  (let mutations := [UpdateScrollPosition 25; UpdateHeightAtIndex 1 5] in
   visibleIndexTop (incremental mutations ten_items) = 2 /\
   visibleIndexTop (recomputed mutations ten_items) = 3 /\
   (paddingTop (incremental mutations ten_items) == 15)%Q /\
   (paddingTop (recomputed mutations ten_items) == 25)%Q /\
   ~ agree (incremental mutations ten_items) (recomputed mutations ten_items)) /\
  (let mutations := [UpdateHeightAtIndex 0 25] in
   visibleLength (incremental mutations ten_items) = 4 /\
   visibleLength (recomputed mutations ten_items) = 4 /\
   Num.eq (paddingBottom (incremental mutations ten_items)) (Fin 69) /\
   Num.eq (paddingBottom (recomputed mutations ten_items)) (Fin 60) /\
   ~ agree (incremental mutations ten_items) (recomputed mutations ten_items)).
Proof.
  vm_compute. repeat split.
  - intros (H & _). discriminate H.
  - intros (_ & _ & _ & H). discriminate H.
Qed.

(** ** The clamp at the end of the list *)

Lemma getItemRangeHeight_empty (s : State) (startIndex endIndex : Z) :
  endIndex < startIndex -> getItemRangeHeight s startIndex endIndex = 0%Q.
Proof.
  intros Hlt. unfold getItemRangeHeight.
  replace (Z.to_nat (endIndex - startIndex + 1)) with O by lia.
  reflexivity.
Qed.

Lemma calcPaddingBottom_last_index (s : State) (prevVisibleIndexBottom : Z) :
  calcPaddingBottom s (length s - 1) prevVisibleIndexBottom = Fin 0.
Proof.
  unfold calcPaddingBottom. rewrite Z.eqb_refl.
  replace (length s - (length s - 1) - 1) with 0 by lia.
  cbn -[Qeq_bool Qdiv Qmult Num.Qltb].
  destruct (Qeq_bool (inject_Z (length s)) 0).
  - unfold Num.signed_inf. destruct (totalHeight s ?= 0)%Q; reflexivity.
  - cbn -[Qdiv Qmult Num.Qltb].
    replace (Num.Qltb 0 (inject_Z 0 * (totalHeight s / inject_Z (length s)))) with false;
      [reflexivity |].
    symmetry. apply Qltb_ge. rewrite Qmult_0_l. apply Qle_refl.
Qed.

Lemma calculateVisibleIndices_end_clamped (s : State) :
  end_clamped (calculateVisibleIndices s).
Proof.
  unfold end_clamped, visibleIndexBottom. intros Hend.
  unfold calculateVisibleIndices in *. cbn in *.
  rewrite getItemRangeHeight_empty; [reflexivity |].
  destruct (Qeq_bool (scrollTop s) 0); [cbn in *; lia |].
  destruct (scan_down s (scrollTop s) (Z.to_nat (length s - 0)) 0 0 0); cbn in *; lia.
Qed.

(** C5: [paddingBottom] is forced to 0 whenever the window ends at the last
    item ([calcPaddingBottom], and the full computation), but the below-window
    branch of [updateHeightAtIndex] returns early without the clamp and without
    a range check.  With the ten-item list scrolled to its end (window 5..9,
    [paddingBottom = 0]), [updateHeightAtIndex(10, 25)] leaves the window at
    the last index 9 and [paddingBottom = 25]; the same call once more makes
    it 50, since the recorded height of an index beyond the list still reads
    as 0. *)
Theorem height_beyond_list_breaks_end_clamp :
  let s := updateScrollPosition 50 ten_items in
  let s' := updateHeightAtIndex 10 25 s in
  let s'' := updateHeightAtIndex 10 25 s' in
  visibleIndexBottom s = length s - 1 /\
  Num.eq (paddingBottom s) (Fin 0) /\
  visibleIndexBottom s' = length s' - 1 /\
  Num.eq (paddingBottom s') (Fin 25) /\
  ~ end_clamped s' /\
  Num.eq (paddingBottom s'') (Fin 50).
Proof.
  vm_compute. repeat split.
  intros H. specialize (H eq_refl). discriminate H.
Qed.

(** ** The window stays inside the list *)

Lemma visible_loop_bounds (s : State) (n : nat) :
  forall (i : Z) (visibleHeight : Q) (count : Z),
    count <= visible_loop s n i visibleHeight count <= count + Z.of_nat n.
Proof.
  induction n as [| n IH]; intros i visibleHeight count; cbn [visible_loop].
  - lia.
  - destruct (Num.Qltb visibleHeight (viewportHeight s)).
    + specialize (IH (i + 1) (visibleHeight + getItemHeight s i)%Q (count + 1)). lia.
    + lia.
Qed.

Lemma calcVisibleLength_bounds (s : State) :
  0 <= calcVisibleLength s <= Z.max 0 (length s - visibleIndexTop s).
Proof.
  unfold calcVisibleLength.
  pose proof (visible_loop_bounds s (Z.to_nat (length s - visibleIndexTop s))
                (visibleIndexTop s) ((scrollTop s - paddingTop s) * (-1 # 1))%Q 0).
  lia.
Qed.

Lemma scan_down_bounds (s : State) (scrollTop : Q) (n : nat) :
  forall (i top : Z) (paddingTop : Q),
    top <= fst (scan_down s scrollTop n i top paddingTop) <= top + Z.of_nat n.
Proof.
  induction n as [| n IH]; intros i top paddingTop; cbn [scan_down].
  - cbn. lia.
  - destruct (Qle_bool (paddingTop + getItemHeight s i) scrollTop).
    + specialize (IH (i + 1) (top + 1) (paddingTop + getItemHeight s i)%Q). lia.
    + cbn. lia.
Qed.

Lemma scan_up_bounds (s : State) (scrollTop : Q) (n : nat) :
  forall (i top : Z) (paddingTop : Q),
    top - Z.of_nat n <= fst (scan_up s scrollTop n i top paddingTop) <= top.
Proof.
  induction n as [| n IH]; intros i top paddingTop; cbn [scan_up].
  - cbn. lia.
  - destruct (Num.Qltb scrollTop paddingTop).
    + specialize (IH (i - 1) (top - 1) (paddingTop - getItemHeight s i)%Q). lia.
    + cbn. lia.
Qed.

(** Recomputing [visibleLength] keeps the window inside the list as soon as its
    top index is. *)
Lemma window_invariant_calcVisibleLength (s : State) :
  0 <= visibleIndexTop s <= length s ->
  window_invariant (set_visibleLength (calcVisibleLength s) s).
Proof.
  intros Htop. pose proof (calcVisibleLength_bounds s) as Hlen.
  unfold window_invariant. cbn. lia.
Qed.

Lemma window_invariant_fields (s s' : State) :
  visibleIndexTop s' = visibleIndexTop s ->
  visibleLength s' = visibleLength s ->
  length s' = length s ->
  window_invariant s -> window_invariant s'.
Proof.
  unfold window_invariant. intros -> -> ->. trivial.
Qed.

Lemma constructor_length (options : list Option) :
  Forall valid_option options -> length (constructor options) = 0.
Proof.
  intros Hvalid.
  assert (Hfold : forall s0, length (fold_left (fun s fn => fn s) options s0) = length s0).
  { induction Hvalid as [| fn options Hfn _ IH]; intros s0; cbn; [reflexivity |].
    rewrite IH. destruct Hfn; reflexivity. }
  exact (Hfold blank).
Qed.

Lemma window_invariant_constructor (options : list Option) :
  Forall valid_option options -> window_invariant (constructor options).
Proof.
  intros Hvalid. pose proof (constructor_length options Hvalid) as Hlen.
  unfold window_invariant.
  change (visibleIndexTop (constructor options)) with 0.
  change (visibleLength (constructor options)) with 0.
  lia.
Qed.

Lemma window_invariant_calculateVisibleIndices (s : State) :
  0 <= length s -> window_invariant (calculateVisibleIndices s).
Proof.
  intros Hlen. unfold calculateVisibleIndices.
  match goal with
  | |- context [set_visibleLength (calcVisibleLength ?s1) ?s1] =>
      assert (Htop : 0 <= visibleIndexTop s1 <= length s1)
  end.
  { destruct (Qeq_bool (scrollTop s) 0); [cbn; lia |].
    pose proof (scan_down_bounds s (scrollTop s) (Z.to_nat (length s - 0)) 0 0 0) as Hscan.
    destruct (scan_down s (scrollTop s) (Z.to_nat (length s - 0)) 0 0 0); cbn in *. lia. }
  apply window_invariant_calcVisibleLength in Htop.
  eapply window_invariant_fields; [| | | exact Htop]; reflexivity.
Qed.

Lemma window_invariant_updateViewportHeight (height : Q) (s : State) :
  window_invariant s -> window_invariant (updateViewportHeight height s).
Proof.
  intros Hinv. unfold updateViewportHeight.
  destruct (Qeq_bool height (viewportHeight s)); [exact Hinv |].
  eapply window_invariant_fields;
    [| | | apply (window_invariant_calcVisibleLength (set_viewportHeight height s))];
    try reflexivity.
  unfold window_invariant in Hinv. cbn. lia.
Qed.

Lemma window_invariant_updateLength (len : Z) (s : State) :
  0 <= len -> window_invariant s -> window_invariant (updateLength len s).
Proof.
  intros Hlen Hinv. unfold updateLength.
  destruct (Z.eqb_spec len (length s)) as [_ | _]; [exact Hinv |].
  cbn zeta.
  destruct (Z.gtb_spec len (length s)) as [Hgrow | _].
  - eapply window_invariant_fields;
      [| | | apply (window_invariant_calcVisibleLength
                     (set_totalHeight
                        (totalHeight (set_length len s)
                         + inject_Z (len - length s) * defaultHeight (set_length len s))
                        (set_length len s)))];
      try reflexivity.
    unfold window_invariant in Hinv. cbn. lia.
  - apply window_invariant_calculateVisibleIndices. cbn. exact Hlen.
Qed.

Lemma window_invariant_updateScrollPosition (newScrollTop : Q) (s : State) :
  window_invariant s -> window_invariant (updateScrollPosition newScrollTop s).
Proof.
  intros Hinv. unfold updateScrollPosition.
  assert (Hlen : 0 <= length s) by (unfold window_invariant in Hinv; lia).
  destruct (negb (visibleIndicesCalculated (set_scrollTop newScrollTop s))).
  { apply window_invariant_calculateVisibleIndices. exact Hlen. }
  cbn zeta.
  destruct (Qeq_bool (newScrollTop - scrollTop s) 0).
  { eapply window_invariant_fields; [| | | exact Hinv]; reflexivity. }
  match goal with
  | |- window_invariant (let '(top, paddingTop) := ?scan in _) =>
      assert (Htop : 0 <= fst scan <= length s); [| destruct scan as [top' paddingTop']]
  end.
  { unfold window_invariant in Hinv.
    destruct (Num.Qltb (newScrollTop - scrollTop s) 0).
    - pose proof (scan_up_bounds (set_scrollTop newScrollTop s) newScrollTop
                    (Z.to_nat (visibleIndexTop (set_scrollTop newScrollTop s) - 1 + 1))
                    (visibleIndexTop (set_scrollTop newScrollTop s) - 1)
                    (visibleIndexTop (set_scrollTop newScrollTop s))
                    (paddingTop (set_scrollTop newScrollTop s))) as Hscan.
      cbn in *. lia.
    - pose proof (scan_down_bounds (set_scrollTop newScrollTop s) newScrollTop
                    (Z.to_nat (length (set_scrollTop newScrollTop s)
                               - visibleIndexTop (set_scrollTop newScrollTop s)))
                    (visibleIndexTop (set_scrollTop newScrollTop s))
                    (visibleIndexTop (set_scrollTop newScrollTop s))
                    (paddingTop (set_scrollTop newScrollTop s))) as Hscan.
      cbn in *. lia. }
  cbn in Htop.
  eapply window_invariant_fields;
    [| | | apply (window_invariant_calcVisibleLength
                   (set_paddingTop paddingTop'
                      (set_visibleIndexTop top' (set_scrollTop newScrollTop s))))];
    try reflexivity.
  cbn. exact Htop.
Qed.

Lemma window_invariant_updateHeightAtIndex (index : Z) (height : Q) (s : State) :
  window_invariant s -> window_invariant (updateHeightAtIndex index height s).
Proof.
  intros Hinv. unfold updateHeightAtIndex. cbn zeta.
  destruct (index >? visibleIndexTop s + visibleLength s - 1).
  { eapply window_invariant_fields; [| | | exact Hinv]; reflexivity. }
  match goal with
  | |- context [set_visibleLength (calcVisibleLength ?s1) ?s1] =>
      assert (Htop : 0 <= visibleIndexTop s1 <= length s1)
  end.
  { unfold window_invariant in Hinv.
    destruct (index <? _); cbn; lia. }
  apply window_invariant_calcVisibleLength in Htop.
  eapply window_invariant_fields; [| | | exact Htop]; reflexivity.
Qed.

Lemma reachable_window_invariant (allowed : State -> Z -> Prop) (s : State) :
  reachable_by allowed s -> window_invariant s.
Proof.
  induction 1 as [options Hvalid | s _ IH | height s _ IH _ | len s _ IH Hlen
                 | newScrollTop s _ IH _ | index height s _ IH _ _].
  - apply window_invariant_constructor, Hvalid.
  - apply window_invariant_calculateVisibleIndices.
    unfold window_invariant in IH. lia.
  - apply window_invariant_updateViewportHeight, IH.
  - apply window_invariant_updateLength; assumption.
  - apply window_invariant_updateScrollPosition, IH.
  - apply window_invariant_updateHeightAtIndex, IH.
Qed.

(** C7: in every state with [length > 0] that the constructor and the five
    operations produce from non-negative inputs, [0 <= visibleIndexTop] and
    [visibleIndexTop + visibleLength <= length]. *)
Theorem reachable_window_in_bounds (s : State) :
  reachable s -> 0 < length s -> window_in_bounds s.
Proof.
  intros Hreach _. apply reachable_window_invariant in Hreach.
  unfold window_invariant in Hreach. unfold window_in_bounds. lia.
Qed.

Lemma reachable_ten_items : reachable ten_items.
Proof.
  unfold reachable, ten_items.
  apply reach_calculateVisibleIndices, reach_updateViewportHeight;
    [apply reach_updateLength; [apply reach_constructor | lia] | unfold Qle; simpl; lia].
  repeat constructor. unfold Qle; simpl; lia.
Qed.

Lemma reachable_window_in_bounds_witness :
  window_in_bounds (updateHeightAtIndex 0 25 (updateScrollPosition 20 ten_items)).
Proof.
  apply (reachable_window_in_bounds
           (updateHeightAtIndex 0 25 (updateScrollPosition 20 ten_items))).
  - apply reach_updateHeightAtIndex;
      [apply reach_updateScrollPosition; [exact reachable_ten_items |] | |];
      first [lia | unfold Qle; simpl; lia].
  - vm_compute. reflexivity.
Defined.

(** ** Updates that change nothing *)

Lemma unchanged_refl (s : State) : unchanged s s.
Proof. unfold unchanged. repeat split; reflexivity. Qed.

Lemma updateHeightAtIndex_notifies (index : Z) (height : Q) (s : State) :
  notifications (updateHeightAtIndex index height s) = S (notifications s).
Proof.
  unfold updateHeightAtIndex. cbn zeta.
  destruct (index >? visibleIndexTop s + visibleLength s - 1); [reflexivity |].
  destruct (index <? _); reflexivity.
Qed.

(** C3, as stated: after a full computation on the ten-item list whose first
    item was measured at 100, [updateHeightAtIndex(0, 100)] repeats the current
    height of item 0, yet [paddingBottom] goes from 90 to 171 and a
    notification is requested. *)
Lemma updateHeightAtIndex_same_height_not_noop :
  let s := calculateVisibleIndices (updateHeightAtIndex 0 100 ten_items) in
  let s' := updateHeightAtIndex 0 100 s in
  (getItemHeight s 0 == 100)%Q /\
  Num.eq (paddingBottom s) (Fin 90) /\
  Num.eq (paddingBottom s') (Fin 171) /\
  notifications s' = S (notifications s) /\
  ~ unchanged s s'.
Proof.
  vm_compute. repeat split.
  intros (_ & _ & _ & _ & _ & _ & _ & _ & _ & _ & _ & H). discriminate H.
Qed.

(** C3, amended: [updateViewportHeight], [updateLength] and, after the first
    full computation, [updateScrollPosition] called with the current value of
    their field leave every field as it was and request no notification;
    [updateHeightAtIndex] has no such guard and requests a notification on
    every call. *)
Theorem guarded_updates_are_noops
    (s : State) (height : Q) (len : Z) (newScrollTop : Q) :
  ((height == viewportHeight s)%Q ->
   unchanged s (updateViewportHeight height s)) /\
  (len = length s ->
   unchanged s (updateLength len s)) /\
  (visibleIndicesCalculated s = true -> (newScrollTop == scrollTop s)%Q ->
   unchanged s (updateScrollPosition newScrollTop s)) /\
  (forall (index : Z) (h : Q),
      notifications (updateHeightAtIndex index h s) = S (notifications s)).
Proof.
  split; [| split; [| split]].
  - intros Hheight. unfold updateViewportHeight.
    apply Qeq_bool_iff in Hheight. rewrite Hheight. apply unchanged_refl.
  - intros Hlen. unfold updateLength. subst len. rewrite Z.eqb_refl.
    apply unchanged_refl.
  - intros Hcalculated Hscroll.
    unfold updateScrollPosition. cbn. rewrite Hcalculated. cbn.
    assert (Hdelta : Qeq_bool (newScrollTop - scrollTop s) 0 = true).
    { apply Qeq_bool_iff. rewrite Hscroll. ring. }
    rewrite Hdelta. unfold unchanged. cbn.
    repeat split; first [reflexivity | exact Hscroll].
  - intros index h. apply updateHeightAtIndex_notifies.
Qed.

Lemma guarded_updates_are_noops_witness :
  unchanged ten_items (updateViewportHeight 50 ten_items) /\
  unchanged ten_items (updateLength 10 ten_items) /\
  unchanged ten_items (updateScrollPosition 0 ten_items).
Proof.
  destruct (guarded_updates_are_noops ten_items 50 10 0)
    as (Hviewport & Hlength & Hscroll & _).
  split; [| split].
  - apply Hviewport. reflexivity.
  - apply Hlength. reflexivity.
  - apply Hscroll; reflexivity.
Defined.

(** ** The average-height floor *)

Lemma add_Fin_not_NaN (x : number) (q : Q) : x <> NaN -> (x + Fin q)%num <> NaN.
Proof. destruct x; cbn; congruence. Qed.

Lemma sub_Fin_not_NaN (x : number) (q : Q) : x <> NaN -> (x - Fin q)%num <> NaN.
Proof. destruct x; cbn; congruence. Qed.

Lemma max_zero_not_NaN (x : number) : x <> NaN -> Num.max (Fin 0) x <> NaN.
Proof.
  destruct x as [q | | |]; cbn; try congruence.
  destruct (Num.Qltb 0 q); congruence.
Qed.

(** Leaving [if (paddingBottom < minPaddingBottom) paddingBottom = minPaddingBottom]
    with a finite minimum. *)
Lemma raised_to_minimum (x : number) (m : Q) :
  x <> NaN -> Num.le (Fin m) (if (x <? Fin m)%num then Fin m else x).
Proof.
  intros Hx. destruct x as [q | | |]; cbn; try congruence; try exact I.
  - destruct (Num.Qltb q m) eqn:Hlt; cbn.
    + apply Qle_refl.
    + apply Qltb_ge, Hlt.
  - apply Qle_refl.
Qed.

Lemma inject_Z_positive (z : Z) : 0 < z -> Qeq_bool (inject_Z z) 0 = false.
Proof.
  intros Hz. apply not_true_iff_false. rewrite Qeq_bool_iff.
  unfold Qeq. cbn. lia.
Qed.

Lemma calcPaddingBottom_above_floor
    (s : State) (visibleIndexBottom prevVisibleIndexBottom : Z) :
  0 < length s ->
  paddingBottom s <> NaN ->
  Num.le
    (Fin (inject_Z (length s - visibleIndexBottom - 1))
     * (Fin (totalHeight s) / Fin (inject_Z (length s))))%num
    (calcPaddingBottom s visibleIndexBottom prevVisibleIndexBottom).
Proof.
  intros Hlen Hpb. unfold calcPaddingBottom.
  cbn [Num.div]. rewrite (inject_Z_positive _ Hlen). cbn [Num.mul].
  apply raised_to_minimum.
  destruct (visibleIndexBottom =? length s - 1); [congruence |].
  destruct (visibleIndexBottom <? prevVisibleIndexBottom);
    [apply add_Fin_not_NaN, Hpb |].
  destruct (visibleIndexBottom >? prevVisibleIndexBottom); [| exact Hpb].
  apply max_zero_not_NaN, sub_Fin_not_NaN, Hpb.
Qed.

(** The last two steps of every operation that ends in [calcPaddingBottom]. *)
Lemma above_floor_calcPaddingBottom (s : State) (prevVisibleIndexBottom : Z) :
  0 < length s ->
  paddingBottom s <> NaN ->
  above_floor
    (handleChange
       (set_paddingBottom
          (calcPaddingBottom s (visibleIndexTop s + visibleLength s - 1)
             prevVisibleIndexBottom) s)).
Proof.
  intros Hlen Hpb. unfold above_floor, average_floor, visibleIndexBottom. cbn.
  apply calcPaddingBottom_above_floor; assumption.
Qed.

(** C6, as stated: the full computation and the below-window branch of
    [updateHeightAtIndex] both leave [paddingBottom] under the floor.  After
    [updateHeightAtIndex(0, 100)] on the ten-item list ([totalHeight = 190],
    nine items below the window), [calculateVisibleIndices()] gives
    [paddingBottom = 90] under a floor of 9 x 19 = 171; and on the ten-item
    list itself [updateHeightAtIndex(7, 0)] gives [paddingBottom = 40] under a
    floor of 5 x 9 = 45. *)
Lemma paddingBottom_under_average_floor :
  (let s := calculateVisibleIndices (updateHeightAtIndex 0 100 ten_items) in
   0 < length s /\
   Num.eq (paddingBottom s) (Fin 90) /\ Num.eq (average_floor s) (Fin 171) /\
   ~ above_floor s) /\
  (let s := updateHeightAtIndex 7 0 ten_items in
   0 < length s /\
   Num.eq (paddingBottom s) (Fin 40) /\ Num.eq (average_floor s) (Fin 45) /\
   ~ above_floor s).
Proof.
  vm_compute. repeat split; intros H; apply H; reflexivity.
Qed.

(** C6, amended: in a state with [length > 0] whose [paddingBottom] is a
    number, every operation that sets [paddingBottom] through
    [calcPaddingBottom] leaves it at or above
    (items below the window) x (totalHeight / length): [updateViewportHeight]
    with a new height, [updateScrollPosition] with a new offset after the first
    full computation, and [updateHeightAtIndex] at an index that is not below
    the window. *)
Theorem calcPaddingBottom_updates_above_floor
    (s : State) (height : Q) (newScrollTop : Q) (index : Z) (h : Q) :
  0 < length s ->
  paddingBottom s <> NaN ->
  (~ (height == viewportHeight s)%Q ->
   above_floor (updateViewportHeight height s)) /\
  (visibleIndicesCalculated s = true -> ~ (newScrollTop == scrollTop s)%Q ->
   above_floor (updateScrollPosition newScrollTop s)) /\
  (index <= visibleIndexTop s + visibleLength s - 1 ->
   above_floor (updateHeightAtIndex index h s)).
Proof.
  intros Hlen Hpb.
  split; [| split].
  - intros Hheight. unfold updateViewportHeight. take_branch.
    apply above_floor_calcPaddingBottom; assumption.
  - intros Hcalculated Hscroll.
    unfold updateScrollPosition. cbn. rewrite Hcalculated. cbn.
    rewrite Qeq_bool_false by (intros Hdelta; apply Hscroll; lra).
    match goal with
    | |- above_floor (let '(top, paddingTop) := ?scan in _) =>
        destruct scan as [top' paddingTop']
    end.
    apply above_floor_calcPaddingBottom; assumption.
  - intros Hindex. unfold updateHeightAtIndex. cbn zeta. take_branch.
    destruct (index <? _); apply above_floor_calcPaddingBottom; assumption.
Qed.

Lemma calcPaddingBottom_updates_above_floor_witness :
  above_floor (updateViewportHeight 30 ten_items) /\
  above_floor (updateScrollPosition 25 ten_items) /\
  above_floor (updateHeightAtIndex 0 100 ten_items).
Proof.
  destruct (calcPaddingBottom_updates_above_floor ten_items 30 25 0 100)
    as (Hviewport & Hscroll & Hheight).
  - vm_compute. reflexivity.
  - vm_compute. discriminate.
  - split; [| split].
    + apply Hviewport. vm_compute. discriminate.
    + apply Hscroll; vm_compute; [reflexivity | discriminate].
    + apply Hheight. vm_compute. discriminate.
Defined.

(** ** A height update above the window *)













(** ** The clamp holds as long as heights are reported for items of the list *)

(** [visible_loop] reads the viewport height and the heights of the items it
    counts, nothing else. *)
Lemma visible_loop_local (s s' : State) (n : nat) :
  viewportHeight s' = viewportHeight s ->
  forall (i : Z) (visibleHeight : Q) (count : Z),
    (forall j, i <= j < i + (visible_loop s n i visibleHeight count - count) ->
               getItemHeight s' j = getItemHeight s j) ->
    visible_loop s' n i visibleHeight count = visible_loop s n i visibleHeight count.
Proof.
  intros Hviewport.
  induction n as [| n IH]; intros i visibleHeight count Hsame; cbn [visible_loop] in *.
  - reflexivity.
  - rewrite Hviewport.
    destruct (Num.Qltb visibleHeight (viewportHeight s)); [| reflexivity].
    pose proof (visible_loop_bounds s n (i + 1)
                  (visibleHeight + getItemHeight s i)%Q (count + 1)) as Hgrow.
    rewrite (Hsame i) by lia.
    apply IH. intros j Hj. apply Hsame. lia.
Qed.

Lemma calcVisibleLength_local (s s' : State) :
  viewportHeight s' = viewportHeight s ->
  length s' = length s ->
  visibleIndexTop s' = visibleIndexTop s ->
  paddingTop s' = paddingTop s ->
  scrollTop s' = scrollTop s ->
  (forall j, visibleIndexTop s <= j < visibleIndexTop s + calcVisibleLength s ->
             getItemHeight s' j = getItemHeight s j) ->
  calcVisibleLength s' = calcVisibleLength s.
Proof.
  intros Hviewport Hlength Htop Hpadding Hscroll Hsame.
  unfold calcVisibleLength in *. rewrite Hlength, Htop, Hpadding, Hscroll.
  apply visible_loop_local; [exact Hviewport |].
  intros j Hj. apply Hsame. lia.
Qed.

Lemma getItemHeight_fields (s s' : State) (j : Z) :
  length s' = length s ->
  defaultHeight s' = defaultHeight s ->
  heights s' !! j = heights s !! j ->
  getItemHeight s' j = getItemHeight s j.
Proof.
  intros Hlength Hdefault Hheights. unfold getItemHeight.
  rewrite Hlength, Hdefault, Hheights. reflexivity.
Qed.

(** Assignments to fields that [calcVisibleLength] does not read. *)
Lemma calcVisibleLength_fields (s s' : State) :
  viewportHeight s' = viewportHeight s ->
  length s' = length s ->
  defaultHeight s' = defaultHeight s ->
  visibleIndexTop s' = visibleIndexTop s ->
  paddingTop s' = paddingTop s ->
  scrollTop s' = scrollTop s ->
  heights s' = heights s ->
  calcVisibleLength s' = calcVisibleLength s.
Proof.
  intros Hviewport Hlength Hdefault Htop Hpadding Hscroll Hheights.
  apply calcVisibleLength_local; try assumption.
  intros j _. apply getItemHeight_fields; [assumption | assumption |].
  rewrite Hheights. reflexivity.
Qed.

(** If the loop counts every item of a longer list, it counts every item of
    the list cut short. *)
Lemma visible_loop_full_prefix (s s' : State) (n m : nat) :
  viewportHeight s' = viewportHeight s ->
  forall (i : Z) (visibleHeight : Q) (count : Z),
    (forall j, i <= j < i + Z.of_nat n -> getItemHeight s' j = getItemHeight s j) ->
    visible_loop s' (n + m) i visibleHeight count = count + Z.of_nat (n + m) ->
    visible_loop s n i visibleHeight count = count + Z.of_nat n.
Proof.
  intros Hviewport.
  induction n as [| n IH]; intros i visibleHeight count Hsame Hfull.
  - cbn. lia.
  - cbn [visible_loop Nat.add] in *. rewrite Hviewport in Hfull.
    destruct (Num.Qltb visibleHeight (viewportHeight s)); [| lia].
    rewrite (Hsame i) in Hfull by lia.
    rewrite (IH (i + 1) (visibleHeight + getItemHeight s i)%Q (count + 1)); [lia | |].
    + intros j Hj. apply Hsame. lia.
    + rewrite Hfull. lia.
Qed.

(** The last steps of an operation that recomputes [visibleLength] and then
    sets [paddingBottom] through [calcPaddingBottom]. *)
Lemma settled_calcPaddingBottom (s : State) (prevVisibleIndexBottom : Z) :
  0 <= visibleIndexTop s <= length s ->
  let s1 := set_visibleLength (calcVisibleLength s) s in
  settled
    (handleChange
       (set_paddingBottom
          (calcPaddingBottom s1 (visibleIndexTop s1 + visibleLength s1 - 1)
             prevVisibleIndexBottom) s1)).
Proof.
  intros Htop s1. split; [| split].
  - eapply window_invariant_fields;
      [| | | apply (window_invariant_calcVisibleLength s Htop)]; reflexivity.
  - cbn. symmetry. apply calcVisibleLength_fields; reflexivity.
  - unfold end_clamped, visibleIndexBottom. cbn. intros Hend.
    rewrite Hend.
    change (length s) with (length (set_visibleLength (calcVisibleLength s) s)).
    rewrite calcPaddingBottom_last_index. reflexivity.
Qed.

Lemma settled_constructor (options : list Option) :
  Forall valid_option options -> settled (constructor options).
Proof.
  intros Hvalid.
  pose proof (window_invariant_constructor options Hvalid) as Hwindow.
  split; [exact Hwindow | split].
  - pose proof (calcVisibleLength_bounds (constructor options)) as Hbounds.
    rewrite (constructor_length options Hvalid) in Hbounds.
    change (visibleLength (constructor options)) with 0.
    change (visibleIndexTop (constructor options)) with 0 in Hbounds. lia.
  - intros _. reflexivity.
Qed.

Lemma settled_calculateVisibleIndices (s : State) :
  0 <= length s -> settled (calculateVisibleIndices s).
Proof.
  intros Hlen. split; [| split].
  - apply window_invariant_calculateVisibleIndices, Hlen.
  - unfold calculateVisibleIndices. cbn.
    symmetry. apply calcVisibleLength_fields; reflexivity.
  - apply calculateVisibleIndices_end_clamped.
Qed.

Lemma settled_updateViewportHeight (height : Q) (s : State) :
  settled s -> settled (updateViewportHeight height s).
Proof.
  intros Hsettled. unfold updateViewportHeight.
  destruct (Qeq_bool height (viewportHeight s)); [exact Hsettled |].
  destruct Hsettled as (Hwindow & _ & _). unfold window_invariant in Hwindow.
  apply (settled_calcPaddingBottom (set_viewportHeight height s)). cbn. lia.
Qed.

Lemma Qltb_compat (x x' y : Q) : (x == x')%Q -> Num.Qltb x y = Num.Qltb x' y.
Proof.
  intros Hx. destruct (Num.Qltb x' y) eqn:Hlt.
  - apply Qltb_lt. apply Qltb_lt in Hlt. lra.
  - apply Qltb_ge. apply Qltb_ge in Hlt. lra.
Qed.

(** The count does not depend on how the visible height is written as a
    fraction. *)
Lemma visible_loop_Qeq (s : State) (n : nat) :
  forall (i : Z) (visibleHeight visibleHeight' : Q) (count : Z),
    (visibleHeight == visibleHeight')%Q ->
    visible_loop s n i visibleHeight count = visible_loop s n i visibleHeight' count.
Proof.
  induction n as [| n IH]; intros i visibleHeight visibleHeight' count Heq;
    cbn [visible_loop]; [reflexivity |].
  rewrite (Qltb_compat _ _ _ Heq).
  destruct (Num.Qltb visibleHeight' (viewportHeight s)); [| reflexivity].
  apply IH. rewrite Heq. reflexivity.
Qed.

Lemma settled_updateScrollPosition (newScrollTop : Q) (s : State) :
  settled s -> settled (updateScrollPosition newScrollTop s).
Proof.
  intros Hsettled.
  pose proof (window_invariant_updateScrollPosition newScrollTop s
                (proj1 Hsettled)) as Hwindow'.
  destruct Hsettled as (Hwindow & Hvisible & Hclamp).
  assert (Hlen : 0 <= length s) by (unfold window_invariant in Hwindow; lia).
  unfold updateScrollPosition in *.
  destruct (negb (visibleIndicesCalculated (set_scrollTop newScrollTop s))).
  { apply settled_calculateVisibleIndices. exact Hlen. }
  cbn zeta in *.
  destruct (Qeq_bool (newScrollTop - scrollTop s) 0) eqn:Hdelta.
  { split; [exact Hwindow' | split; [| exact Hclamp]].
    cbn. rewrite Hvisible. unfold calcVisibleLength. cbn.
    apply Qeq_bool_iff in Hdelta.
    rewrite (visible_loop_Qeq _ _ _ ((newScrollTop - paddingTop s) * (-1 # 1))%Q
               ((scrollTop s - paddingTop s) * (-1 # 1))%Q) by lra.
    symmetry. apply visible_loop_local; [reflexivity |].
    intros j _. apply getItemHeight_fields; reflexivity. }
  revert Hwindow'.
  match goal with
  | |- context [let '(top, paddingTop) := ?scan in _] =>
      destruct scan as [top' paddingTop']
  end.
  intros Hwindow'. unfold window_invariant in Hwindow'. cbn in Hwindow'.
  apply (settled_calcPaddingBottom
           (set_paddingTop paddingTop'
              (set_visibleIndexTop top' (set_scrollTop newScrollTop s)))).
  cbn. lia.
Qed.

Lemma getItemHeight_insert_other (s : State) (index j : Z) (height : Q) (total : Q) :
  j <> index ->
  getItemHeight (set_totalHeight total (set_heights (<[index := height]> (heights s)) s)) j
  = getItemHeight s j.
Proof.
  intros Hne. apply getItemHeight_fields; [reflexivity | reflexivity |].
  cbn. apply lookup_insert_ne. congruence.
Qed.

Lemma settled_updateHeightAtIndex (index : Z) (height : Q) (s : State) :
  index < length s ->
  settled s -> settled (updateHeightAtIndex index height s).
Proof.
  intros Hrange Hsettled.
  destruct Hsettled as (Hwindow & Hvisible & Hclamp).
  unfold updateHeightAtIndex. cbn zeta.
  destruct (Z.gtb_spec index (visibleIndexTop s + visibleLength s - 1)) as [Hbelow | Hnot].
  - split; [| split].
    + eapply window_invariant_fields; [| | | exact Hwindow]; reflexivity.
    + cbn. rewrite Hvisible at 1. symmetry.
      apply calcVisibleLength_local; try reflexivity.
      intros j Hj. apply getItemHeight_insert_other. lia.
    + unfold end_clamped, visibleIndexBottom. cbn. intros Hend. lia.
  - unfold window_invariant in Hwindow.
    match goal with
    | |- context [set_visibleLength (calcVisibleLength ?s1) ?s1] =>
        apply (settled_calcPaddingBottom s1)
    end.
    destruct (index <? _); cbn; lia.
Qed.

Lemma settled_updateLength (len : Z) (s : State) :
  0 <= len -> settled s -> settled (updateLength len s).
Proof.
  intros Hlen Hsettled.
  pose proof (window_invariant_updateLength len s Hlen (proj1 Hsettled)) as Hwindow'.
  destruct Hsettled as (Hwindow & Hvisible & Hclamp).
  unfold updateLength in *.
  destruct (Z.eqb_spec len (length s)) as [_ | _]; [split; [| split]; assumption |].
  cbn zeta in *.
  destruct (Z.gtb_spec len (length s)) as [Hgrow | _].
  2:{ apply settled_calculateVisibleIndices. cbn. exact Hlen. }
  set (s1 := set_totalHeight
               (totalHeight (set_length len s)
                + inject_Z (len - length s) * defaultHeight (set_length len s))
               (set_length len s)) in *.
  split; [exact Hwindow' | split].
  - cbn. symmetry. apply calcVisibleLength_fields; reflexivity.
  - unfold end_clamped, visibleIndexBottom. cbn. intros Hend.
    unfold window_invariant in Hwindow.
    (* the window counts every item of the longer list, so it did before *)
    assert (Hfull : calcVisibleLength s = length s - visibleIndexTop s).
    { unfold calcVisibleLength in *. cbn in Hend.
      pose proof (visible_loop_full_prefix s s1
                    (Z.to_nat (length s - visibleIndexTop s))
                    (Z.to_nat (len - length s))
                    eq_refl (visibleIndexTop s)
                    ((scrollTop s - paddingTop s) * (-1 # 1))%Q 0) as Hprefix.
      rewrite Hprefix; [lia | |].
      - intros j Hj. unfold getItemHeight. cbn. take_branch. reflexivity.
      - replace (Z.to_nat (length s - visibleIndexTop s) + Z.to_nat (len - length s))%nat
          with (Z.to_nat (len - visibleIndexTop s)) by lia.
        lia. }
    assert (Hzero : Num.eq (paddingBottom s) (Fin 0)).
    { apply Hclamp. unfold visibleIndexBottom. lia. }
    rewrite getItemRangeHeight_empty by lia.
    destruct (paddingBottom s) as [q | | |]; cbn in *; try contradiction. lra.
Qed.

Lemma reachable_in_range_settled (s : State) :
  reachable_in_range s -> settled s.
Proof.
  induction 1 as [options Hvalid | s _ IH | height s _ IH _ | len s _ IH Hlen
                 | newScrollTop s _ IH _ | index height s _ IH Hindex _].
  - apply settled_constructor, Hvalid.
  - apply settled_calculateVisibleIndices.
    destruct IH as (Hwindow & _). unfold window_invariant in Hwindow. lia.
  - apply settled_updateViewportHeight, IH.
  - apply settled_updateLength; assumption.
  - apply settled_updateScrollPosition, IH.
  - apply settled_updateHeightAtIndex; [lia | exact IH].
Qed.


(** ** Item heights: recording and reading *)

Lemma updateHeightAtIndex_heights (index : Z) (height : Q) (s : State) :
  heights (updateHeightAtIndex index height s) = <[index := height]> (heights s) /\
  length (updateHeightAtIndex index height s) = length s /\
  defaultHeight (updateHeightAtIndex index height s) = defaultHeight s /\
  viewportHeight (updateHeightAtIndex index height s) = viewportHeight s /\
  visibleIndexTop (updateHeightAtIndex index height s) = visibleIndexTop s.
Proof.
  unfold updateHeightAtIndex. cbn zeta.
  destruct (index >? visibleIndexTop s + visibleLength s - 1); [repeat split |].
  destruct (index <? _); repeat split.
Qed.

(** A height reported for an item of the list is what [getItemHeight] returns
    for it from then on, and the heights of all other items read as before. *)
Theorem getItemHeight_updateHeightAtIndex (s : State) (index j : Z) (height : Q) :
  (index <= length s - 1 ->
   getItemHeight (updateHeightAtIndex index height s) index = height) /\
  (j <> index ->
   getItemHeight (updateHeightAtIndex index height s) j = getItemHeight s j).
Proof.
  destruct (updateHeightAtIndex_heights index height s) as (Hheights & Hlength & Hdefault & _).
  unfold getItemHeight. rewrite Hheights, Hlength, Hdefault. split.
  - intros Hrange. take_branch. rewrite lookup_insert_eq. reflexivity.
  - intros Hother. rewrite lookup_insert_ne by congruence. reflexivity.
Qed.

Lemma getItemHeight_updateHeightAtIndex_witness :
  getItemHeight (updateHeightAtIndex 3 25 ten_items) 3 = 25%Q /\
  getItemHeight (updateHeightAtIndex 3 25 ten_items) 4 = getItemHeight ten_items 4.
Proof.
  destruct (getItemHeight_updateHeightAtIndex ten_items 3 4 25) as (Hsame & Hother).
  split; [apply Hsame; vm_compute; discriminate | apply Hother; lia].
Defined.

Lemma updateLength_growth_heights (len : Z) (s : State) :
  len > length s ->
  heights (updateLength len s) = heights s /\
  defaultHeight (updateLength len s) = defaultHeight s /\
  length (updateLength len s) = len.
Proof.
  intros Hgrow. unfold updateLength.
  destruct (Z.eqb_spec len (length s)) as [Heq | _]; [lia |].
  cbn. take_branch. cbn. repeat split.
Qed.

(** A height reported for an index beyond the end of the list is kept but
    reads as 0 for as long as the index is out of range; once [updateLength]
    has grown the list past that index, the recorded height is what
    [getItemHeight] returns. *)
Theorem getItemHeight_beyond_list (s : State) (index len : Z) (height : Q) :
  length s <= index ->
  index < len ->
  getItemHeight (updateHeightAtIndex index height s) index = 0%Q /\
  getItemHeight (updateLength len (updateHeightAtIndex index height s)) index = height.
Proof.
  intros Hbeyond Hgrow.
  destruct (updateHeightAtIndex_heights index height s) as (Hheights & Hlength & Hdefault & _).
  split.
  - unfold getItemHeight. rewrite Hlength. take_branch. reflexivity.
  - destruct (updateLength_growth_heights len (updateHeightAtIndex index height s))
      as (Hheights' & Hdefault' & Hlength'); [lia |].
    unfold getItemHeight. rewrite Hheights', Hlength', Hheights.
    take_branch. rewrite lookup_insert_eq. reflexivity.
Qed.

Lemma getItemHeight_beyond_list_witness :
  getItemHeight (updateHeightAtIndex 12 25 ten_items) 12 = 0%Q /\
  getItemHeight (updateLength 20 (updateHeightAtIndex 12 25 ten_items)) 12 = 25%Q.
Proof.
  apply (getItemHeight_beyond_list ten_items 12 20 25).
  - vm_compute. discriminate.
  - lia.
Defined.

Lemma calculateVisibleIndices_heights (s : State) :
  heights (calculateVisibleIndices s) = heights s /\
  defaultHeight (calculateVisibleIndices s) = defaultHeight s /\
  length (calculateVisibleIndices s) = length s /\
  viewportHeight (calculateVisibleIndices s) = viewportHeight s /\
  scrollTop (calculateVisibleIndices s) = scrollTop s /\
  totalHeight (calculateVisibleIndices s) = totalHeight s.
Proof.
  unfold calculateVisibleIndices.
  destruct (Qeq_bool (scrollTop s) 0); [repeat split |].
  destruct (scan_down s (scrollTop s) (Z.to_nat (length s - 0)) 0 0 0); repeat split.
Qed.

Lemma updateViewportHeight_heights (height : Q) (s : State) :
  heights (updateViewportHeight height s) = heights s /\
  defaultHeight (updateViewportHeight height s) = defaultHeight s /\
  length (updateViewportHeight height s) = length s.
Proof.
  unfold updateViewportHeight.
  destruct (Qeq_bool height (viewportHeight s)); repeat split.
Qed.

Lemma updateLength_heights (len : Z) (s : State) :
  heights (updateLength len s) = heights s /\
  defaultHeight (updateLength len s) = defaultHeight s /\
  length (updateLength len s) = len.
Proof.
  unfold updateLength.
  destruct (Z.eqb_spec len (length s)) as [-> | _]; [repeat split |].
  cbn zeta. destruct (len >? length s); [repeat split |].
  match goal with
  | |- context [calculateVisibleIndices ?s1] =>
      destruct (calculateVisibleIndices_heights s1) as (-> & -> & -> & _)
  end.
  repeat split.
Qed.

Lemma updateScrollPosition_heights (newScrollTop : Q) (s : State) :
  heights (updateScrollPosition newScrollTop s) = heights s /\
  defaultHeight (updateScrollPosition newScrollTop s) = defaultHeight s /\
  length (updateScrollPosition newScrollTop s) = length s.
Proof.
  unfold updateScrollPosition.
  destruct (negb (visibleIndicesCalculated (set_scrollTop newScrollTop s))).
  { destruct (calculateVisibleIndices_heights (set_scrollTop newScrollTop s))
      as (-> & -> & -> & _). repeat split. }
  cbn zeta. destruct (Qeq_bool (newScrollTop - scrollTop s) 0); [repeat split |].
  match goal with
  | |- context [let '(top, paddingTop) := ?scan in _] => destruct scan
  end.
  repeat split.
Qed.

(** Measured heights are only ever added or overwritten: no operation removes
    an entry of [heights] or changes [defaultHeight], and only
    [updateHeightAtIndex] writes an entry, the one at its index. *)
Theorem heights_only_recorded (s : State) (m : Mutation) :
  heights (calculateVisibleIndices s) = heights s /\
  defaultHeight (calculateVisibleIndices s) = defaultHeight s /\
  heights (mutate m s)
  = match m with
    | UpdateHeightAtIndex index height => <[index := height]> (heights s)
    | _ => heights s
    end /\
  defaultHeight (mutate m s) = defaultHeight s /\
  (forall j : Z, is_Some (heights s !! j) -> is_Some (heights (mutate m s) !! j)).
Proof.
  assert (Hmutate :
    heights (mutate m s)
    = match m with
      | UpdateHeightAtIndex index height => <[index := height]> (heights s)
      | _ => heights s
      end /\
    defaultHeight (mutate m s) = defaultHeight s).
  { destruct m as [height | len | newScrollTop | index height]; cbn [mutate].
    - split; apply updateViewportHeight_heights.
    - split; apply updateLength_heights.
    - split; apply updateScrollPosition_heights.
    - split; apply updateHeightAtIndex_heights. }
  destruct Hmutate as (Hheights & Hdefault).
  split; [apply calculateVisibleIndices_heights |].
  split; [apply calculateVisibleIndices_heights |].
  split; [exact Hheights | split; [exact Hdefault |]].
  intros j Hj. rewrite Hheights.
  destruct m as [height | len | newScrollTop | index height]; try exact Hj.
  destruct (decide (index = j)) as [-> | Hne].
  - rewrite lookup_insert_eq. eauto.
  - rewrite lookup_insert_ne by exact Hne. exact Hj.
Qed.

(** ** Sums of item heights *)

Lemma range_loop_acc (s : State) (n : nat) :
  forall (i : Z) (sum : Q), (range_loop s n i sum == sum + range_loop s n i 0)%Q.
Proof.
  induction n as [| n IH]; intros i sum; cbn [range_loop].
  - ring.
  - rewrite (IH (i + 1) (sum + getItemHeight s i)%Q).
    rewrite (IH (i + 1) (0 + getItemHeight s i)%Q). ring.
Qed.

Lemma range_loop_app (s : State) (n m : nat) :
  forall (i : Z) (sum : Q),
    range_loop s (n + m) i sum = range_loop s m (i + Z.of_nat n) (range_loop s n i sum).
Proof.
  induction n as [| n IH]; intros i sum.
  - cbn. f_equal. lia.
  - cbn [range_loop Nat.add]. rewrite IH. f_equal. lia.
Qed.

Lemma getItemRangeHeight_app (s : State) (startIndex middle endIndex : Z) :
  startIndex <= middle + 1 ->
  middle <= endIndex ->
  (getItemRangeHeight s startIndex endIndex
   == getItemRangeHeight s startIndex middle
      + getItemRangeHeight s (middle + 1) endIndex)%Q.
Proof.
  intros Hlow Hhigh. unfold getItemRangeHeight.
  replace (Z.to_nat (endIndex - startIndex + 1))
    with (Z.to_nat (middle - startIndex + 1) + Z.to_nat (endIndex - (middle + 1) + 1))%nat
    by lia.
  rewrite range_loop_app.
  replace (startIndex + Z.of_nat (Z.to_nat (middle - startIndex + 1))) with (middle + 1) by lia.
  apply range_loop_acc.
Qed.

Lemma getItemRangeHeight_single (s : State) (i : Z) :
  (getItemRangeHeight s i i == getItemHeight s i)%Q.
Proof.
  unfold getItemRangeHeight. replace (Z.to_nat (i - i + 1)) with 1%nat by lia.
  cbn. ring.
Qed.

Lemma getItemRangeHeight_last (s : State) (startIndex endIndex : Z) :
  startIndex <= endIndex + 1 ->
  (getItemRangeHeight s startIndex (endIndex + 1)
   == getItemRangeHeight s startIndex endIndex + getItemHeight s (endIndex + 1))%Q.
Proof.
  intros Hle.
  rewrite (getItemRangeHeight_app s startIndex endIndex (endIndex + 1)) by lia.
  rewrite getItemRangeHeight_single. reflexivity.
Qed.

Lemma getItemRangeHeight_first (s : State) (startIndex endIndex : Z) :
  startIndex <= endIndex ->
  (getItemRangeHeight s startIndex endIndex
   == getItemHeight s startIndex + getItemRangeHeight s (startIndex + 1) endIndex)%Q.
Proof.
  intros Hle.
  rewrite (getItemRangeHeight_app s startIndex startIndex endIndex) by lia.
  rewrite getItemRangeHeight_single. reflexivity.
Qed.



(** Two states that give the items of a range the same heights give the range
    the same sum. *)
Lemma range_loop_ext (s s' : State) (n : nat) :
  forall (i : Z) (sum : Q),
    (forall j, i <= j < i + Z.of_nat n -> getItemHeight s' j = getItemHeight s j) ->
    range_loop s' n i sum = range_loop s n i sum.
Proof.
  induction n as [| n IH]; intros i sum Hsame; cbn [range_loop]; [reflexivity |].
  rewrite (Hsame i) by lia. apply IH. intros j Hj. apply Hsame. lia.
Qed.

Lemma getItemRangeHeight_ext (s s' : State) (startIndex endIndex : Z) :
  (forall j, startIndex <= j <= endIndex -> getItemHeight s' j = getItemHeight s j) ->
  getItemRangeHeight s' startIndex endIndex = getItemRangeHeight s startIndex endIndex.
Proof.
  intros Hsame. unfold getItemRangeHeight. apply range_loop_ext.
  intros j Hj. apply Hsame. lia.
Qed.





(** ** What the full computation establishes *)

Lemma Qle_bool_false (x y : Q) : Qle_bool x y = false -> (y < x)%Q.
Proof.
  intros Hle. apply Qnot_le_lt. intros Hxy.
  apply Qle_bool_iff in Hxy. congruence.
Qed.

(** The forward scan started at the top of the window: how far it gets, what
    it has summed, and why it stopped. *)
Lemma scan_down_spec (s : State) (scrollTop : Q) (n : nat) :
  forall (top : Z) (paddingTop : Q),
    let r := scan_down s scrollTop n top top paddingTop in
    top <= fst r <= top + Z.of_nat n /\
    (snd r == paddingTop + getItemRangeHeight s top (fst r - 1))%Q /\
    ((paddingTop <= scrollTop)%Q -> (snd r <= scrollTop)%Q) /\
    (fst r < top + Z.of_nat n -> (scrollTop < snd r + getItemHeight s (fst r))%Q).
Proof.
  induction n as [| n IH]; intros top paddingTop; cbn [scan_down].
  - cbn. rewrite getItemRangeHeight_empty by lia.
    repeat split; try lia; [ring | trivial].
  - destruct (Qle_bool (paddingTop + getItemHeight s top) scrollTop) eqn:Hfits.
    + specialize (IH (top + 1) (paddingTop + getItemHeight s top)%Q).
      cbn zeta in *. destruct IH as (Hbounds & Hsum & Hle & Hstop).
      apply Qle_bool_iff in Hfits.
      repeat split; try lia.
      * rewrite Hsum.
        rewrite (getItemRangeHeight_first s top) by lia. ring.
      * intros _. apply Hle, Hfits.
      * intros Hearly. apply Hstop. lia.
    + cbn. rewrite getItemRangeHeight_empty by lia.
      repeat split; try lia; [ring | trivial |].
      intros _. apply Qle_bool_false, Hfits.
Qed.

Lemma calculateVisibleIndices_anchor (s : State) :
  let s' := calculateVisibleIndices s in
  paddingTop_exact s' /\
  ((0 <= scrollTop s)%Q -> (paddingTop s' <= scrollTop s')%Q) /\
  ((scrollTop s == 0)%Q -> visibleIndexTop s' = 0) /\
  (~ (scrollTop s == 0)%Q ->
   visibleIndexTop s' < length s' ->
   (scrollTop s' < paddingTop s' + getItemHeight s' (visibleIndexTop s'))%Q).
Proof.
  cbn zeta. unfold paddingTop_exact.
  assert (Hsame : forall j, getItemHeight (calculateVisibleIndices s) j = getItemHeight s j).
  { intros j. destruct (calculateVisibleIndices_heights s) as (Hh & Hd & Hl & _).
    apply getItemHeight_fields; [exact Hl | exact Hd | rewrite Hh; reflexivity]. }
  rewrite (getItemRangeHeight_ext s) by (intros j _; apply Hsame).
  rewrite Hsame.
  destruct (calculateVisibleIndices_heights s) as (_ & _ & Hlength & _ & Hscroll & _).
  rewrite Hlength, Hscroll. clear Hsame Hlength Hscroll.
  unfold calculateVisibleIndices.
  destruct (Qeq_bool (scrollTop s) 0) eqn:Hzero.
  - apply Qeq_bool_iff in Hzero. cbn.
    rewrite getItemRangeHeight_empty by lia.
    repeat split; try reflexivity; [lra | contradiction].
  - apply Qeq_bool_neq in Hzero.
    pose proof (scan_down_spec s (scrollTop s) (Z.to_nat (length s - 0)) 0 0) as Hscan.
    destruct (scan_down s (scrollTop s) (Z.to_nat (length s - 0)) 0 0 0) as [top paddingTop].
    cbn in *. destruct Hscan as (Hbounds & Hsum & Hle & Hstop).
    repeat split.
    + rewrite Hsum. ring.
    + exact Hle.
    + intros Hz. contradiction.
    + intros _ Hinside. apply Hstop. lia.
Qed.

(** After [calculateVisibleIndices], [paddingTop] is the summed height of the
    items above the window and does not exceed a non-negative [scrollTop];
    with [scrollTop] zero the window starts at item 0; otherwise the first
    item of the window, if there is one, ends below the scroll offset. *)
Theorem calculateVisibleIndices_top (s : State) :
  let s' := calculateVisibleIndices s in
  paddingTop_exact s' /\
  ((0 <= scrollTop s)%Q -> (paddingTop s' <= scrollTop s')%Q) /\
  ((scrollTop s == 0)%Q -> visibleIndexTop s' = 0) /\
  (~ (scrollTop s == 0)%Q ->
   visibleIndexTop s' < length s' ->
   (scrollTop s' < paddingTop s' + getItemHeight s' (visibleIndexTop s'))%Q).
Proof. apply calculateVisibleIndices_anchor. Qed.

Lemma calculateVisibleIndices_top_witness :
  let s' := calculateVisibleIndices (updateScrollPosition 25 ten_items) in
  (paddingTop s' <= scrollTop s')%Q /\
  (scrollTop s' < paddingTop s' + getItemHeight s' (visibleIndexTop s'))%Q.
Proof.
  destruct (calculateVisibleIndices_top (updateScrollPosition 25 ten_items))
    as (_ & Hle & _ & Hstraddle).
  split.
  - apply Hle. vm_compute. discriminate.
  - apply Hstraddle; vm_compute; [discriminate | reflexivity].
Defined.

(** The loop of [calcVisibleLength], with [visibleHeight] the height seen so
    far: if it stops before the end of the list the items counted fill the
    viewport, and without the last item counted they do not. *)
Lemma visible_loop_spec (s : State) (n : nat) :
  forall (i : Z) (visibleHeight : Q) (count : Z),
    let counted := visible_loop s n i visibleHeight count - count in
    (counted < Z.of_nat n ->
     (viewportHeight s <= visibleHeight + getItemRangeHeight s i (i + counted - 1))%Q) /\
    (0 < counted ->
     (visibleHeight + getItemRangeHeight s i (i + counted - 2) < viewportHeight s)%Q).
Proof.
  induction n as [| n IH]; intros i visibleHeight count; cbn [visible_loop]; cbn zeta.
  - split; lia.
  - destruct (Num.Qltb visibleHeight (viewportHeight s)) eqn:Hroom.
    + apply Qltb_lt in Hroom.
      specialize (IH (i + 1) (visibleHeight + getItemHeight s i)%Q (count + 1)).
      cbn zeta in IH. destruct IH as (Hfull & Hlast).
      pose proof (visible_loop_bounds s n (i + 1)
                    (visibleHeight + getItemHeight s i)%Q (count + 1)) as Hbounds.
      set (r := visible_loop s n (i + 1) (visibleHeight + getItemHeight s i)%Q (count + 1)) in *.
      split.
      * intros Hearly.
        rewrite (getItemRangeHeight_first s i) by lia.
        replace (i + (r - count) - 1) with (i + 1 + (r - (count + 1)) - 1) by lia.
        assert (Hthere := Hfull ltac:(lia)). lra.
      * intros _.
        destruct (Z.eq_dec r (count + 1)) as [Hone | Hmore].
        -- rewrite getItemRangeHeight_empty by lia. lra.
        -- rewrite (getItemRangeHeight_first s i) by lia.
           replace (i + (r - count) - 2) with (i + 1 + (r - (count + 1)) - 2) by lia.
           assert (Hthere := Hlast ltac:(lia)). lra.
    + apply Qltb_ge in Hroom. replace (count - count) with 0 by lia.
      split; [| lia].
      intros _. rewrite getItemRangeHeight_empty by lia. lra.
Qed.

Lemma calcVisibleLength_spec (s : State) :
  let v := calcVisibleLength s in
  (v < length s - visibleIndexTop s ->
   (viewportHeight s <= visibleHeightUpTo s (visibleIndexTop s + v - 1))%Q) /\
  (0 < v ->
   (visibleHeightUpTo s (visibleIndexTop s + v - 2) < viewportHeight s)%Q).
Proof.
  cbn zeta. unfold calcVisibleLength, visibleHeightUpTo.
  pose proof (visible_loop_spec s (Z.to_nat (length s - visibleIndexTop s))
                (visibleIndexTop s) ((scrollTop s - paddingTop s) * (-1 # 1))%Q 0) as Hloop.
  cbn zeta in Hloop. rewrite Z.sub_0_r in Hloop.
  destruct Hloop as (Hfull & Hlast).
  split.
  - intros Hearly. assert (Hthere := Hfull ltac:(lia)). lra.
  - intros Hsome. assert (Hthere := Hlast Hsome). lra.
Qed.

(** [calcVisibleLength] counts the items from [visibleIndexTop] on until they
    fill the viewport: it never counts past the end of the list; if it stops
    before the end, the counted items reach the bottom of the viewport; and
    the last counted item is needed, the ones before it do not reach it. *)
Theorem calcVisibleLength_fills_viewport (s : State) :
  let v := calcVisibleLength s in
  0 <= v <= Z.max 0 (length s - visibleIndexTop s) /\
  (v < length s - visibleIndexTop s ->
   (viewportHeight s <= visibleHeightUpTo s (visibleIndexTop s + v - 1))%Q) /\
  (0 < v ->
   (visibleHeightUpTo s (visibleIndexTop s + v - 2) < viewportHeight s)%Q).
Proof.
  cbn zeta. split; [apply calcVisibleLength_bounds | apply calcVisibleLength_spec].
Qed.

Lemma calcVisibleLength_fills_viewport_witness :
  let s := updateScrollPosition 25 ten_items in
  (viewportHeight s
   <= visibleHeightUpTo s (visibleIndexTop s + calcVisibleLength s - 1))%Q /\
  (visibleHeightUpTo s (visibleIndexTop s + calcVisibleLength s - 2)
   < viewportHeight s)%Q.
Proof.
  destruct (calcVisibleLength_fills_viewport (updateScrollPosition 25 ten_items))
    as (_ & Hfull & Hlast).
  split; [apply Hfull | apply Hlast]; vm_compute; reflexivity.
Defined.



Lemma scan_down_ext (s s' : State) (scrollTop : Q) (n : nat) :
  (forall j, getItemHeight s' j = getItemHeight s j) ->
  forall (i top : Z) (paddingTop : Q),
    scan_down s' scrollTop n i top paddingTop = scan_down s scrollTop n i top paddingTop.
Proof.
  intros Hsame. induction n as [| n IH]; intros i top paddingTop; cbn [scan_down].
  - reflexivity.
  - rewrite Hsame, IH. reflexivity.
Qed.

(** What [calculateVisibleIndices] computes is a function of [scrollTop],
    [viewportHeight], [length], [defaultHeight] and [heights] alone. *)
Lemma calculateVisibleIndices_inputs (s s' : State) :
  scrollTop s' = scrollTop s ->
  viewportHeight s' = viewportHeight s ->
  length s' = length s ->
  defaultHeight s' = defaultHeight s ->
  heights s' = heights s ->
  visibleIndexTop (calculateVisibleIndices s') = visibleIndexTop (calculateVisibleIndices s) /\
  visibleLength (calculateVisibleIndices s') = visibleLength (calculateVisibleIndices s) /\
  paddingTop (calculateVisibleIndices s') = paddingTop (calculateVisibleIndices s) /\
  paddingBottom (calculateVisibleIndices s') = paddingBottom (calculateVisibleIndices s).
Proof.
  intros Hscroll Hviewport Hlength Hdefault Hheights.
  assert (Hsame : forall j, getItemHeight s' j = getItemHeight s j).
  { intros j. apply getItemHeight_fields; [assumption | assumption |].
    rewrite Hheights. reflexivity. }
  unfold calculateVisibleIndices. rewrite Hscroll, Hlength.
  rewrite (scan_down_ext s s' _ _ Hsame).
  set (start := fun t : State =>
         if Qeq_bool (scrollTop s) 0 then set_paddingTop 0 (set_visibleIndexTop 0 t)
         else let '(visibleIndexTop, paddingTop) :=
                scan_down s (scrollTop s) (Z.to_nat (length s - 0)) 0 0 0 in
              set_paddingTop paddingTop (set_visibleIndexTop visibleIndexTop t)).
  change (if Qeq_bool (scrollTop s) 0 then set_paddingTop 0 (set_visibleIndexTop 0 s')
          else let '(visibleIndexTop, paddingTop) :=
                 scan_down s (scrollTop s) (Z.to_nat (length s - 0)) 0 0 0 in
               set_paddingTop paddingTop (set_visibleIndexTop visibleIndexTop s'))
    with (start s').
  change (if Qeq_bool (scrollTop s) 0 then set_paddingTop 0 (set_visibleIndexTop 0 s)
          else let '(visibleIndexTop, paddingTop) :=
                 scan_down s (scrollTop s) (Z.to_nat (length s - 0)) 0 0 0 in
               set_paddingTop paddingTop (set_visibleIndexTop visibleIndexTop s))
    with (start s).
  assert (Hstart :
    visibleIndexTop (start s') = visibleIndexTop (start s) /\
    paddingTop (start s') = paddingTop (start s) /\
    scrollTop (start s') = scrollTop (start s) /\
    viewportHeight (start s') = viewportHeight (start s) /\
    length (start s') = length (start s) /\
    defaultHeight (start s') = defaultHeight (start s) /\
    heights (start s') = heights (start s)).
  { unfold start. destruct (Qeq_bool (scrollTop s) 0).
    - cbn. repeat split; assumption.
    - destruct (scan_down s (scrollTop s) (Z.to_nat (length s - 0)) 0 0 0).
      cbn. repeat split; assumption. }
  destruct Hstart as (Htop & Hpadding & Hscroll' & Hviewport' & Hlength' & Hdefault' & Hheights').
  assert (Hvisible : calcVisibleLength (start s') = calcVisibleLength (start s))
    by (apply calcVisibleLength_fields; assumption).
  cbn. rewrite Hvisible, Htop, Hpadding, Hlength'.
  repeat split. f_equal.
  apply getItemRangeHeight_ext. intros j _.
  apply getItemHeight_fields; cbn; [assumption | assumption |].
  rewrite Hheights'. reflexivity.
Qed.

Lemma calculateVisibleIndices_notifies (s : State) :
  notifications (calculateVisibleIndices s) = S (notifications s) /\
  visibleIndicesCalculated (calculateVisibleIndices s) = true.
Proof.
  unfold calculateVisibleIndices.
  destruct (Qeq_bool (scrollTop s) 0); [split; reflexivity |].
  destruct (scan_down s (scrollTop s) (Z.to_nat (length s - 0)) 0 0 0); split; reflexivity.
Qed.

(** [calculateVisibleIndices] starts from scratch: the window and paddings it
    produces do not depend on the window, paddings or [totalHeight] the state
    held before, and running it a second time changes nothing but the count of
    notifications. *)
Theorem calculateVisibleIndices_from_scratch
    (s : State) (top visible : Z) (above : Q) (below : number) (total : Q) :
  let s' := set_totalHeight total
              (set_paddingBottom below
                 (set_paddingTop above
                    (set_visibleLength visible
                       (set_visibleIndexTop top s)))) in
  (visibleIndexTop (calculateVisibleIndices s') = visibleIndexTop (calculateVisibleIndices s) /\
   visibleLength (calculateVisibleIndices s') = visibleLength (calculateVisibleIndices s) /\
   paddingTop (calculateVisibleIndices s') = paddingTop (calculateVisibleIndices s) /\
   paddingBottom (calculateVisibleIndices s') = paddingBottom (calculateVisibleIndices s)) /\
  (visibleIndexTop (calculateVisibleIndices (calculateVisibleIndices s))
   = visibleIndexTop (calculateVisibleIndices s) /\
   visibleLength (calculateVisibleIndices (calculateVisibleIndices s))
   = visibleLength (calculateVisibleIndices s) /\
   paddingTop (calculateVisibleIndices (calculateVisibleIndices s))
   = paddingTop (calculateVisibleIndices s) /\
   paddingBottom (calculateVisibleIndices (calculateVisibleIndices s))
   = paddingBottom (calculateVisibleIndices s) /\
   notifications (calculateVisibleIndices (calculateVisibleIndices s))
   = S (notifications (calculateVisibleIndices s))).
Proof.
  cbn zeta. split.
  - apply calculateVisibleIndices_inputs; reflexivity.
  - destruct (calculateVisibleIndices_heights s)
      as (Hheights & Hdefault & Hlength & Hviewport & Hscroll & _).
    destruct (calculateVisibleIndices_inputs s (calculateVisibleIndices s))
      as (Htop & Hvisible & Hpadding & Hbottom); try assumption.
    repeat split; try assumption.
    apply calculateVisibleIndices_notifies.
Qed.

(** ** The top of the window under incremental updates *)




















(** A state reached with a scroll and a height reported above the window. *)
Lemma reachable_in_range_example :
  reachable_in_range (updateHeightAtIndex 1 5 (updateScrollPosition 25 ten_items)).
Proof.
  unfold reachable_in_range, ten_items.
  apply reach_updateHeightAtIndex; [| vm_compute; split; [discriminate | reflexivity] | unfold Qle; simpl; lia].
  apply reach_updateScrollPosition; [| unfold Qle; simpl; lia].
  apply reach_calculateVisibleIndices, reach_updateViewportHeight;
    [apply reach_updateLength; [apply reach_constructor | lia] | unfold Qle; simpl; lia].
  repeat constructor. unfold Qle; simpl; lia.
Qed.




(** In every state produced from non-negative inputs, with heights reported
    only for items of the list, [visibleLength] is what [calcVisibleLength]
    gives for the current fields: the window ends at the last item of the
    list or reaches the bottom of the viewport, and its last item is needed
    to get there. *)
Theorem reachable_in_range_window_fills_viewport (s : State) :
  reachable_in_range s ->
  visibleLength s = calcVisibleLength s /\
  (visibleIndexTop s + visibleLength s < length s ->
   (viewportHeight s <= visibleHeightUpTo s (visibleIndexBottom s))%Q) /\
  (0 < visibleLength s ->
   (visibleHeightUpTo s (visibleIndexBottom s - 1) < viewportHeight s)%Q).
Proof.
  intros Hreach. apply reachable_in_range_settled in Hreach.
  destruct Hreach as (_ & Hvisible & _).
  destruct (calcVisibleLength_spec s) as (Hfull & Hlast).
  unfold visibleIndexBottom. rewrite Hvisible at 1 2 3 4 5.
  split; [reflexivity | split].
  - intros Hearly. apply Hfull. lia.
  - intros Hsome.
    replace (visibleIndexTop s + calcVisibleLength s - 1 - 1)
      with (visibleIndexTop s + calcVisibleLength s - 2) by lia.
    apply Hlast, Hsome.
Qed.

Lemma reachable_in_range_window_fills_viewport_witness :
  let s := updateHeightAtIndex 1 5 (updateScrollPosition 25 ten_items) in
  (viewportHeight s <= visibleHeightUpTo s (visibleIndexBottom s))%Q /\
  (visibleHeightUpTo s (visibleIndexBottom s - 1) < viewportHeight s)%Q.
Proof.
  destruct (reachable_in_range_window_fills_viewport
              (updateHeightAtIndex 1 5 (updateScrollPosition 25 ten_items))
              reachable_in_range_example) as (_ & Hfull & Hlast).
  split; [apply Hfull | apply Hlast]; vm_compute; reflexivity.
Defined.

(** ** No operation produces a non-finite padding *)










(** ** Notifications *)

(** Every mutation either requests exactly one notification or leaves every
    field of the state as it was: no change goes unannounced, and the shrink
    path of [updateLength], which delegates to [calculateVisibleIndices], does
    not notify twice. *)
Theorem every_change_is_notified (s : State) (m : Mutation) :
  notifications (mutate m s) = S (notifications s) \/
  unchanged s (mutate m s).
Proof.
  destruct m as [height | len | newScrollTop | index height]; cbn [mutate].
  - unfold updateViewportHeight.
    destruct (Qeq_bool height (viewportHeight s)); [right; apply unchanged_refl | left].
    reflexivity.
  - unfold updateLength.
    destruct (len =? length s); [right; apply unchanged_refl | left].
    cbn zeta. destruct (len >? length s); [reflexivity |].
    match goal with
    | |- context [calculateVisibleIndices ?s1] =>
        rewrite (proj1 (calculateVisibleIndices_notifies s1))
    end.
    reflexivity.
  - unfold updateScrollPosition.
    destruct (negb (visibleIndicesCalculated (set_scrollTop newScrollTop s))).
    { left. rewrite (proj1 (calculateVisibleIndices_notifies _)). reflexivity. }
    cbn zeta.
    destruct (Qeq_bool (newScrollTop - scrollTop s) 0) eqn:Hdelta.
    + right. apply Qeq_bool_iff in Hdelta. unfold unchanged. cbn.
      repeat split; try reflexivity. lra.
    + left.
      match goal with
      | |- context [let '(top, paddingTop) := ?scan in _] => destruct scan
      end.
      reflexivity.
  - left. apply updateHeightAtIndex_notifies.
Qed.

(** ** Emptying the list *)

(** [updateLength(0)] on a list that has items leaves an empty window at index
    0 with both paddings 0; the scroll offset and the measured heights are
    kept. *)
Theorem updateLength_zero (s : State) :
  0 < length s ->
  let s' := updateLength 0 s in
  length s' = 0 /\
  visibleIndexTop s' = 0 /\
  visibleLength s' = 0 /\
  paddingTop s' = 0%Q /\
  paddingBottom s' = Fin 0 /\
  scrollTop s' = scrollTop s /\
  heights s' = heights s.
Proof.
  intros Hlen. unfold updateLength.
  destruct (Z.eqb_spec 0 (length s)) as [Heq | _]; [lia |].
  cbn zeta. cbn [length set_length].
  destruct (Z.gtb_spec 0 (length s)) as [Hneg | _]; [lia |].
  unfold calculateVisibleIndices. cbn.
  destruct (Qeq_bool (scrollTop s) 0); cbn; repeat split.
Qed.

Lemma updateLength_zero_witness :
  let s' := updateLength 0 (updateScrollPosition 25 ten_items) in
  length s' = 0 /\
  visibleIndexTop s' = 0 /\
  visibleLength s' = 0 /\
  paddingTop s' = 0%Q /\
  paddingBottom s' = Fin 0 /\
  scrollTop s' = scrollTop (updateScrollPosition 25 ten_items) /\
  heights s' = heights (updateScrollPosition 25 ten_items).
Proof.
  apply (updateLength_zero (updateScrollPosition 25 ten_items)).
  vm_compute. reflexivity.
Defined.

(** ** What the other updates leave alone *)

(** [updateViewportHeight] never moves the top of the window: it leaves
    [visibleIndexTop], [paddingTop], [scrollTop], [length], [totalHeight] and
    the heights as they were, and [viewportHeight] ends up equal to its
    argument. *)
Theorem updateViewportHeight_frame (s : State) (height : Q) :
  let s' := updateViewportHeight height s in
  (viewportHeight s' == height)%Q /\
  visibleIndexTop s' = visibleIndexTop s /\
  paddingTop s' = paddingTop s /\
  scrollTop s' = scrollTop s /\
  length s' = length s /\
  totalHeight s' = totalHeight s /\
  defaultHeight s' = defaultHeight s /\
  heights s' = heights s /\
  visibleIndicesCalculated s' = visibleIndicesCalculated s.
Proof.
  cbn zeta. unfold updateViewportHeight.
  destruct (Qeq_bool height (viewportHeight s)) eqn:Hsame.
  - apply Qeq_bool_iff in Hsame. repeat split. symmetry. exact Hsame.
  - cbn. repeat split.
Qed.

(** [updateScrollPosition] always stores its argument in [scrollTop] and
    leaves the state marked as computed, because the first call runs the full
    computation; it never changes [length], [viewportHeight], [totalHeight] or
    the heights. *)
Theorem updateScrollPosition_frame (s : State) (newScrollTop : Q) :
  let s' := updateScrollPosition newScrollTop s in
  scrollTop s' = newScrollTop /\
  visibleIndicesCalculated s' = true /\
  length s' = length s /\
  viewportHeight s' = viewportHeight s /\
  totalHeight s' = totalHeight s /\
  defaultHeight s' = defaultHeight s /\
  heights s' = heights s.
Proof.
  cbn zeta. unfold updateScrollPosition.
  destruct (visibleIndicesCalculated (set_scrollTop newScrollTop s)) eqn:Hcalculated; cbn [negb].
  - cbn zeta. cbn in Hcalculated.
    destruct (Qeq_bool (newScrollTop - scrollTop s) 0); [repeat split; assumption |].
    match goal with
    | |- context [let '(top, paddingTop) := ?scan in _] => destruct scan
    end.
    cbn. repeat split; assumption.
  - destruct (calculateVisibleIndices_heights (set_scrollTop newScrollTop s))
      as (Hh & Hd & Hl & Hv & Hs & Ht).
    destruct (calculateVisibleIndices_notifies (set_scrollTop newScrollTop s)) as (_ & Hc).
    rewrite Hh, Hd, Hl, Hv, Hs, Ht, Hc. repeat split.
Qed.

(** A height reported for an item inside the window leaves [visibleIndexTop],
    [paddingTop] and [scrollTop] as they were, moves [totalHeight] by the
    height delta, and recounts [visibleLength] with the new height. *)
Theorem updateHeightAtIndex_inside_window (s : State) (index : Z) (height : Q) :
  visibleIndexTop s <= index <= visibleIndexTop s + visibleLength s - 1 ->
  let s' := updateHeightAtIndex index height s in
  visibleIndexTop s' = visibleIndexTop s /\
  paddingTop s' = paddingTop s /\
  scrollTop s' = scrollTop s /\
  totalHeight s' = (totalHeight s - getItemHeight s index + height)%Q /\
  visibleLength s' = calcVisibleLength s'.
Proof.
  intros Hinside. unfold updateHeightAtIndex. cbn zeta. take_branch.
  cbn [visibleIndexTop set_totalHeight set_heights].
  replace (index <? visibleIndexTop s) with false by (symmetry; apply Z.ltb_ge; lia).
  cbn. repeat split.
  symmetry. apply calcVisibleLength_fields; reflexivity.
Qed.

Lemma updateHeightAtIndex_inside_window_witness :
  let s := updateScrollPosition 25 ten_items in
  let s' := updateHeightAtIndex 3 25 s in
  visibleIndexTop s' = visibleIndexTop s /\
  paddingTop s' = paddingTop s /\
  scrollTop s' = scrollTop s /\
  totalHeight s' = (totalHeight s - getItemHeight s 3 + 25)%Q /\
  visibleLength s' = calcVisibleLength s'.
Proof.
  apply (updateHeightAtIndex_inside_window (updateScrollPosition 25 ten_items) 3 25).
  vm_compute. split; discriminate.
Defined.

(** ** Subscriptions *)

Section SubscriberFacts.

Context {Callback : Type} `{EqDecision Callback}.

Implicit Types (cb c : Callback) (subscribers later : list Callback).

Lemma add_elem_of cb c subscribers :
  c ∈ Subscribers.add cb subscribers <-> c = cb \/ c ∈ subscribers.
Proof.
  unfold Subscribers.add. destruct (decide (cb ∈ subscribers)) as [Hin | Hout].
  - split; [auto | intros [-> | Hc]; assumption].
  - rewrite elem_of_app, list_elem_of_singleton. tauto.
Qed.

Lemma delete_elem_of cb c subscribers :
  c ∈ Subscribers.delete cb subscribers <-> c <> cb /\ c ∈ subscribers.
Proof. unfold Subscribers.delete. rewrite list_elem_of_filter. reflexivity. Qed.

Lemma delete_not_subscribed cb subscribers :
  cb ∉ subscribers -> Subscribers.delete cb subscribers = subscribers.
Proof.
  unfold Subscribers.delete. induction subscribers as [| c subscribers IH]; intros Hout.
  - reflexivity.
  - rewrite not_elem_of_cons in Hout. destruct Hout as (Hne & Hout).
    rewrite filter_cons_True by congruence. rewrite IH by exact Hout. reflexivity.
Qed.

Lemma is_set_NoDup subscribers : Subscribers.is_set subscribers -> NoDup subscribers.
Proof.
  induction 1 as [| cb subscribers _ IH | cb subscribers _ IH].
  - constructor.
  - unfold Subscribers.add. destruct (decide (cb ∈ subscribers)) as [Hin | Hout];
      [exact IH |].
    apply NoDup_app. split; [exact IH | split; [| apply NoDup_singleton]].
    intros c Hc Hcb. apply list_elem_of_singleton in Hcb. subst c. contradiction.
  - apply NoDup_filter, IH.
Qed.

(** [onChange(cb)] subscribes [cb] and keeps every earlier subscriber; the
    function it returns unsubscribes [cb] and nobody else, whenever it is
    called; subscribing and unsubscribing a new callback restores the set;
    and since the set holds a callback once, subscribing a callback that is
    already there adds nothing, so that one unsubscribe removes it. *)
Theorem onChange_unsubscribe cb subscribers :
  let '(subscribed, unsubscribe) := Subscribers.onChange cb subscribers in
  cb ∈ subscribed /\
  (forall c, c ∈ subscribers -> c ∈ subscribed) /\
  (forall later, (cb ∉ unsubscribe later) /\
                 (forall c, c <> cb -> (c ∈ unsubscribe later <-> c ∈ later))) /\
  (cb ∉ subscribers -> unsubscribe subscribed = subscribers) /\
  (cb ∈ subscribers -> subscribed = subscribers).
Proof.
  cbn. repeat split.
  - apply add_elem_of. left. reflexivity.
  - intros c Hc. apply add_elem_of. right. exact Hc.
  - rewrite delete_elem_of. tauto.
  - rewrite delete_elem_of. tauto.
  - rewrite delete_elem_of. tauto.
  - intros Hout. unfold Subscribers.add.
    destruct (decide (cb ∈ subscribers)) as [Hin | _]; [contradiction |].
    unfold Subscribers.delete. rewrite filter_app.
    fold (Subscribers.delete cb subscribers).
    rewrite (delete_not_subscribed cb subscribers Hout).
    rewrite filter_cons_False by (intros Hne; apply Hne; reflexivity).
    rewrite filter_nil. apply app_nil_r.
  - intros Hin. unfold Subscribers.add.
    destruct (decide (cb ∈ subscribers)) as [_ | Hout]; [reflexivity | contradiction].
Qed.

(** [_handleChange] calls every subscribed callback with the state, in the
    order of subscription, and calls no callback twice. *)
Theorem handleChange_calls_each_once subscribers (this : State) :
  Subscribers.is_set subscribers ->
  map fst (Subscribers._handleChange subscribers this) = subscribers /\
  NoDup (map fst (Subscribers._handleChange subscribers this)) /\
  (forall (c : Callback) (state : State),
      In (c, state) (Subscribers._handleChange subscribers this)
      <-> c ∈ subscribers /\ state = this).
Proof.
  intros Hset. unfold Subscribers._handleChange.
  assert (Hfst : map fst (map (fun cb => (cb, this)) subscribers) = subscribers).
  { rewrite map_map. cbn. apply map_id. }
  rewrite Hfst. split; [reflexivity | split; [apply is_set_NoDup, Hset |]].
  intros c state. rewrite in_map_iff. split.
  - intros (cb & [= <- <-] & Hin). split; [apply list_elem_of_In, Hin | reflexivity].
  - intros (Hin & ->). exists c. split; [reflexivity | apply list_elem_of_In, Hin].
Qed.

End SubscriberFacts.

Lemma onChange_unsubscribe_witness :
  snd (Subscribers.onChange 7%nat [3%nat; 5%nat]) (fst (Subscribers.onChange 7%nat [3%nat; 5%nat]))
  = [3%nat; 5%nat].
Proof.
  pose proof (onChange_unsubscribe 7%nat [3%nat; 5%nat]) as Hspec.
  cbn [Subscribers.onChange fst snd] in *.
  destruct Hspec as (_ & _ & _ & Hround & _).
  apply Hround. intros Hin. repeat (apply elem_of_cons in Hin; destruct Hin as [Hin | Hin]; [discriminate |]).
  inversion Hin.
Defined.

Lemma handleChange_calls_each_once_witness :
  map fst (Subscribers._handleChange (Subscribers.add 5%nat (Subscribers.add 3%nat [])) ten_items)
  = [3%nat; 5%nat].
Proof.
  destruct (handleChange_calls_each_once
              (Subscribers.add 5%nat (Subscribers.add 3%nat [])) ten_items)
    as (Horder & _).
  - apply Subscribers.set_add, Subscribers.set_add, Subscribers.set_new.
  - rewrite Horder. reflexivity.
Defined.

(** ** The debug switch *)

Lemma call_output_grows (f : Debug.Call) (c : Debug.Console) :
  exists more, Debug.output (Debug.call f c) = Debug.output c ++ more.
Proof.
  destruct f as [| | args]; cbn.
  - unfold Debug.enableDebug. destruct (Debug.enabled c); [exists [] | eexists]; cbn;
      [symmetry; apply app_nil_r | reflexivity].
  - exists []. cbn. symmetry. apply app_nil_r.
  - unfold Debug.debug. destruct (Debug.enabled c); cbn; [eexists | exists []];
      [reflexivity | symmetry; apply app_nil_r].
Qed.

(** The console is only ever appended to; while the switch is off, and until
    [enableDebug] is called, nothing is written at all; and [enableDebug]
    writes its banner only when it turns the switch on, so calling it again
    changes nothing. *)
Theorem debug_output (calls : list Debug.Call) (c : Debug.Console) :
  (exists more, Debug.output (Debug.run calls c) = Debug.output c ++ more) /\
  (Debug.enabled c = false ->
   Forall (fun f => f <> Debug.EnableDebug) calls ->
   Debug.enabled (Debug.run calls c) = false /\
   Debug.output (Debug.run calls c) = Debug.output c) /\
  Debug.enableDebug (Debug.enableDebug c) = Debug.enableDebug c.
Proof.
  split; [| split].
  - revert c. induction calls as [| f calls IH]; intros c.
    + exists []. symmetry. apply app_nil_r.
    + cbn. destruct (IH (Debug.call f c)) as (more & Hmore).
      destruct (call_output_grows f c) as (first & Hfirst).
      exists (first ++ more).
      unfold Debug.run in Hmore. rewrite Hmore, Hfirst. symmetry. apply app_assoc.
  - revert c. induction calls as [| f calls IH]; intros c Hoff Hcalls.
    + split; [exact Hoff | reflexivity].
    + apply Forall_cons in Hcalls. destruct Hcalls as (Hf & Hcalls). cbn.
      assert (Hstep : Debug.enabled (Debug.call f c) = false /\
                      Debug.output (Debug.call f c) = Debug.output c).
      { destruct f as [| | args]; cbn.
        - contradiction.
        - split; reflexivity.
        - unfold Debug.debug. rewrite Hoff. cbn. split; [exact Hoff | reflexivity]. }
      destruct Hstep as (Hoff' & Hout').
      destruct (IH (Debug.call f c) Hoff' Hcalls) as (Hoff'' & Hout'').
      unfold Debug.run in *. rewrite Hout'', Hout'. split; [exact Hoff'' | reflexivity].
  - unfold Debug.enableDebug. destruct (Debug.enabled c) eqn:Hon.
    + rewrite Hon. reflexivity.
    + reflexivity.
Qed.

Lemma debug_output_witness :
  Debug.output
    (Debug.run [Debug.DebugCall [String.EmptyString]; Debug.DisableDebug; Debug.DebugCall []]
       Debug.initial)
  = [].
Proof.
  destruct (debug_output
              [Debug.DebugCall [String.EmptyString]; Debug.DisableDebug; Debug.DebugCall []]
              Debug.initial) as (_ & Hsilent & _).
  apply Hsilent; [reflexivity |].
  repeat constructor; discriminate.
Defined.

(** ** The host adapter *)

(** [reducer] applies the actions in order and each [SET_WINDOW] overwrites
    the whole rendered range, so the result is the range of the last action;
    a single action counts as a one-element array, and an empty array leaves
    the previous state. *)
Theorem reducer_last_action_wins
    (prevState : WindowedList.State) (actions : list WindowedList.Action)
    (action : WindowedList.Action) :
  WindowedList.reducer prevState (inr (actions ++ [action]))
  = WindowedList.mkState (WindowedList.action_startIndex action)
      (WindowedList.action_length action) /\
  WindowedList.reducer prevState (inl action)
  = WindowedList.reducer prevState (inr [action]) /\
  WindowedList.reducer prevState (inr []) = prevState.
Proof.
  unfold WindowedList.reducer. split; [| split; reflexivity].
  rewrite fold_left_app. cbn. unfold WindowedList.reduce_step.
  destruct (WindowedList.type action). reflexivity.
Qed.

(** Whatever the scroll container reports, [handleScroll] hands
    [updateScrollPosition] a non-negative offset, and [handleScrollParentResize]
    a non-negative height when the container height and the threshold are:
    driven by these two handlers a state stays among those the engine reaches
    from non-negative inputs. *)
Theorem adapter_keeps_state_reachable
    (scrollOffset containerHeight : option Q)
    (offsetTop thresholdTop thresholdBottom : Q) (state : State) :
  reachable state ->
  reachable (WindowedList.handleScroll scrollOffset offsetTop thresholdTop state) /\
  ((0 <= thresholdBottom)%Q ->
   (forall viewportHeight, containerHeight = Some viewportHeight -> (0 <= viewportHeight)%Q) ->
   reachable (WindowedList.handleScrollParentResize containerHeight thresholdBottom state)).
Proof.
  intros Hreach. split.
  - unfold WindowedList.handleScroll, reachable.
    apply reach_updateScrollPosition; [exact Hreach | apply Q.le_max_l].
  - intros Hthreshold Hheight. unfold WindowedList.handleScrollParentResize.
    destruct containerHeight as [viewportHeight |]; [| exact Hreach].
    apply reach_updateViewportHeight; [exact Hreach |].
    specialize (Hheight viewportHeight eq_refl). lra.
Qed.

Lemma adapter_keeps_state_reachable_witness :
  reachable (WindowedList.handleScroll (Some 300%Q) 120 400 ten_items) /\
  reachable (WindowedList.handleScrollParentResize (Some 600%Q) 1000 ten_items).
Proof.
  destruct (adapter_keeps_state_reachable (Some 300%Q) (Some 600%Q) 120 400 1000 ten_items
              reachable_ten_items) as (Hscroll & Hresize).
  split; [exact Hscroll | apply Hresize].
  - unfold Qle; simpl; lia.
  - intros viewportHeight [= <-]. unfold Qle; simpl; lia.
Defined.

(** ** Scrolling and resizing agree with the full computation *)













(** ** The running total *)




Lemma heights_only_recorded_witness :
  is_Some (heights (mutate (UpdateLength 2)
                      (updateHeightAtIndex 7 25 ten_items)) !! 7).
Proof.
  destruct (heights_only_recorded (updateHeightAtIndex 7 25 ten_items) (UpdateLength 2))
    as (_ & _ & _ & _ & Hkept).
  apply Hkept. vm_compute. eauto.
Defined.
